(** * A shallow embedding of the astrology companion (chat_companion.py,
    natal_backend.py, app.py) and the properties of its chart-context,
    prompt and chat layers. *)

From Stdlib Require Import String Ascii ZArith List Bool Lia.
From stdpp Require Import base gmap strings list.

Local Open Scope string_scope.
Local Set Warnings "-register-all".

(* ===================================================================== *)
(** ** Python values *)
(* ===================================================================== *)

(** The values the three modules pass around: JSON-like Python data.
    Dictionaries are association lists in insertion order (Python 3.7+
    dicts keep insertion order, and every dict of this code has string
    keys). A float is carried by its [str()] rendering, since the code
    only ever formats floats, never computes with them. *)
Inductive pyval : Type :=
| PNone
| PBool (b : bool)
| PInt (z : Z)
| PFloat (repr : string)
| PStr (s : string)
| PList (xs : list pyval)
| PDict (kvs : list (string * pyval)).

(** Python exceptions raised by the modelled code. All of them are
    subclasses of [Exception]; [APIError] stands for [anthropic.APIError]
    and its subclasses, [OtherError] for any other exception (network,
    timeout, ...). *)
Inductive exc : Type :=
| KeyError (key : string)
| TypeError (msg : string)
| AttributeError (msg : string)
| IndexError (msg : string)
| APIError (msg : string)
| OtherError (msg : string).

(** [str(e)] *)
Definition exc_str (e : exc) : string :=
  match e with
  | KeyError k => "'" ++ k ++ "'"
  | TypeError m | AttributeError m | IndexError m | APIError m
  | OtherError m => m
  end.

(** Code that may raise: a value or a raised exception. *)
Inductive result (A : Type) : Type :=
| Ok (a : A)
| Raise (e : exc).
Arguments Ok {A} a.
Arguments Raise {A} e.

Definition rbind {A B} (m : result A) (k : A -> result B) : result B :=
  match m with
  | Ok a => k a
  | Raise e => Raise e
  end.

Notation "x <- m ;; k" := (rbind m (fun x => k))
  (at level 100, m at next level, right associativity).

(** A [for] loop building one item per element, stopping at the first
    exception. *)
Fixpoint rmap {A B} (f : A -> result B) (xs : list A) : result (list B) :=
  match xs with
  | nil => Ok nil
  | x :: xs' => y <- f x ;; ys <- rmap f xs' ;; Ok (y :: ys)
  end.

(** Newline and the Python string helpers. *)
Definition nl : string := String (ascii_of_nat 10) EmptyString.

Fixpoint str_join (sep : string) (xs : list string) : string :=
  match xs with
  | nil => ""
  | x :: nil => x
  | x :: xs' => x ++ sep ++ str_join sep xs'
  end.

(** Decimal rendering of integers ([str(n)], [f"{n:02d}"]). *)
Fixpoint digits_rev (fuel : nat) (n : N) (acc : string) : string :=
  match fuel with
  | O => acc
  | S f =>
      let acc' := String (ascii_of_N (48 + N.modulo n 10)) acc in
      if (n <? 10)%N then acc' else digits_rev f (N.div n 10) acc'
  end.

Definition string_of_N (n : N) : string := digits_rev (S (N.size_nat n)) n "".

Definition str_of_Z (z : Z) : string :=
  if (z <? 0)%Z then "-" ++ string_of_N (Z.to_N (- z)) else string_of_N (Z.to_N z).

Fixpoint zeros (k : nat) : string :=
  match k with O => "" | S k' => "0" ++ zeros k' end.

(** [f"{z:0{w}d}"]: zero padding after the sign up to width [w]. *)
Definition fmt_0d (w : nat) (z : Z) : string :=
  let ds := string_of_N (Z.to_N (Z.abs z)) in
  if (z <? 0)%Z then "-" ++ zeros (w - 1 - String.length ds) ++ ds
  else zeros (w - String.length ds) ++ ds.

Definition type_name (v : pyval) : string :=
  match v with
  | PNone => "NoneType" | PBool _ => "bool" | PInt _ => "int"
  | PFloat _ => "float" | PStr _ => "str" | PList _ => "list"
  | PDict _ => "dict"
  end.

(** [repr()] and [str()] (quotes inside strings are not escaped). *)
Fixpoint py_repr (v : pyval) : string :=
  match v with
  | PNone => "None"
  | PBool true => "True"
  | PBool false => "False"
  | PInt z => str_of_Z z
  | PFloat r => r
  | PStr s => "'" ++ s ++ "'"
  | PList xs => "[" ++ str_join ", " (map py_repr xs) ++ "]"
  | PDict kvs =>
      "{" ++ str_join ", "
        (map (fun kv => "'" ++ fst kv ++ "': " ++ py_repr (snd kv)) kvs) ++ "}"
  end.

Definition py_str (v : pyval) : string :=
  match v with
  | PStr s => s
  | _ => py_repr v
  end.

(** Truthiness ([if x], [not x], [x or y]). *)
Definition py_truthy (v : pyval) : bool :=
  match v with
  | PNone => false
  | PBool b => b
  | PInt z => negb (Z.eqb z 0)
  | PFloat r => negb (String.eqb r "0.0" || String.eqb r "-0.0")
  | PStr s => negb (String.eqb s "")
  | PList xs => negb (Nat.eqb (List.length xs) 0)
  | PDict kvs => negb (Nat.eqb (List.length kvs) 0)
  end.

Fixpoint assoc {A} (k : string) (kvs : list (string * A)) : option A :=
  match kvs with
  | nil => None
  | (k', v) :: kvs' => if String.eqb k k' then Some v else assoc k kvs'
  end.

(** [d[k]] with a string key. *)
Definition py_getitem (v : pyval) (k : string) : result pyval :=
  match v with
  | PDict kvs =>
      match assoc k kvs with Some x => Ok x | None => Raise (KeyError k) end
  | PList _ => Raise (TypeError "list indices must be integers or slices, not str")
  | PStr _ => Raise (TypeError "string indices must be integers")
  | _ => Raise (TypeError ("'" ++ type_name v ++ "' object is not subscriptable"))
  end.

Definition no_attr (v : pyval) (a : string) : exc :=
  AttributeError ("'" ++ type_name v ++ "' object has no attribute '" ++ a ++ "'").

(** [d.get(k, default)] *)
Definition py_get (v : pyval) (k : string) (default : pyval) : result pyval :=
  match v with
  | PDict kvs => Ok (match assoc k kvs with Some x => x | None => default end)
  | _ => Raise (no_attr v "get")
  end.

(** [d.items()] and [d.values()] *)
Definition py_items (v : pyval) : result (list (string * pyval)) :=
  match v with
  | PDict kvs => Ok kvs
  | _ => Raise (no_attr v "items")
  end.

Definition py_values (v : pyval) : result (list pyval) :=
  match v with
  | PDict kvs => Ok (map snd kvs)
  | _ => Raise (no_attr v "values")
  end.

(** [k in v] for a string [k]. *)
Definition py_contains (v : pyval) (k : string) : result bool :=
  match v with
  | PDict kvs => Ok (existsb (fun kv => String.eqb (fst kv) k) kvs)
  | PList xs =>
      Ok (existsb (fun x => match x with PStr s => String.eqb s k | _ => false end) xs)
  | PStr s => Ok (Nat.eqb (String.length k) 0 || existsb (fun i => String.eqb (substring i (String.length k) s) k) (seq 0 (String.length s)))
  | _ => Raise (TypeError ("argument of type '" ++ type_name v ++ "' is not iterable"))
  end.

(** [v[:n]] *)
Definition py_slice_to (n : nat) (v : pyval) : result pyval :=
  match v with
  | PList xs => Ok (PList (firstn n xs))
  | PStr s => Ok (PStr (substring 0 n s))
  | PDict _ => Raise (TypeError "unhashable type: 'slice'")
  | _ => Raise (TypeError ("'" ++ type_name v ++ "' object is not subscriptable"))
  end.

Fixpoint chars (s : string) : list pyval :=
  match s with
  | EmptyString => nil
  | String c s' => PStr (String c EmptyString) :: chars s'
  end.

(** [for x in v] *)
Definition py_iter (v : pyval) : result (list pyval) :=
  match v with
  | PList xs => Ok xs
  | PStr s => Ok (chars s)
  | PDict kvs => Ok (map (fun kv => PStr (fst kv)) kvs)
  | _ => Raise (TypeError ("'" ++ type_name v ++ "' object is not iterable"))
  end.

(** [sep.join(items)]: every item must be a [str]. *)
Fixpoint py_join_items (items : list pyval) : result (list string) :=
  match items with
  | nil => Ok nil
  | PStr x :: rest => xs <- py_join_items rest ;; Ok (x :: xs)
  | v :: _ =>
      Raise (TypeError ("sequence item: expected str instance, " ++ type_name v ++ " found"))
  end.

Definition py_str_join (sep : string) (items : list pyval) : result string :=
  xs <- py_join_items items ;; Ok (str_join sep xs).

(* ===================================================================== *)
(** ** chat_companion.py: the chat companion *)
(* ===================================================================== *)

(** The fields of [AstrologyCompanion] read by the modelled methods. *)
Record companion : Type := {
  model : string;
  max_tokens : Z;
  system_prompt : string;
  chart_context : option string
}.

Definition with_context (self : companion) (c : option string) : companion :=
  {| model := self.(model); max_tokens := self.(max_tokens);
     system_prompt := self.(system_prompt); chart_context := c |}.

(** Lines 68-97 of [set_chart_context]: the list [context_parts]. *)
Definition placement_line (kv : string * pyval) : result string :=
  let '(planet, data) := kv in
  r <- py_get data "retrograde" PNone ;;
  let retro := if py_truthy r then " (Retrograde)" else "" in
  sign <- py_getitem data "sign" ;;
  house <- py_getitem data "house" ;;
  Ok ("- " ++ planet ++ ": " ++ py_str sign ++ " in House " ++ py_str house ++ retro).

Definition context_aspect_line (aspect : pyval) : result string :=
  p <- py_getitem aspect "planets" ;;
  t <- py_getitem aspect "type" ;;
  o <- py_getitem aspect "orb" ;;
  Ok ("- " ++ py_str p ++ ": " ++ py_str t ++ " (orb: " ++ py_str o ++ "°)").

Definition context_parts (chart_data : pyval) : result (list string) :=
  name <- py_getitem chart_data "name" ;;
  bd <- py_getitem chart_data "birth_data" ;;
  date <- py_getitem bd "date" ;;
  bd2 <- py_getitem chart_data "birth_data" ;;
  time <- py_getitem bd2 "time" ;;
  bd3 <- py_getitem chart_data "birth_data" ;;
  location <- py_getitem bd3 "location" ;;
  let head := ["User's Natal Chart - " ++ py_str name;
               "Birth: " ++ py_str date ++ " at " ++ py_str time;
               "Location: " ++ py_str location;
               "";
               "PLACEMENTS:"] in
  placements <- py_get chart_data "placements" (PDict nil) ;;
  items <- py_items placements ;;
  pls <- rmap placement_line items ;;
  has_interp <- py_contains chart_data "interpretation" ;;
  themes <- (if has_interp then
               interp <- py_getitem chart_data "interpretation" ;;
               its <- py_items interp ;;
               Ok ("" :: "KEY THEMES:" :: map (fun kv => "- " ++ py_str (snd kv)) its)
             else Ok nil) ;;
  asp <- py_get chart_data "aspects" PNone ;;
  aspects <- (if py_truthy asp then
                a <- py_getitem chart_data "aspects" ;;
                top <- py_slice_to 5 a ;;
                xs <- py_iter top ;;
                ls <- rmap context_aspect_line xs ;;
                Ok ("" :: "MAJOR ASPECTS:" :: ls)
              else Ok nil) ;;
  Ok (head ++ pls ++ themes ++ aspects)%list.

(** [AstrologyCompanion.set_chart_context]: the new companion, or the
    exception raised (the attribute is then left as it was). *)
Definition set_chart_context (self : companion) (chart_data : pyval) : result companion :=
  if negb (py_truthy chart_data) then Ok (with_context self None) else
  success <- py_get chart_data "success" PNone ;;
  if negb (py_truthy success) then Ok (with_context self None) else
  parts <- context_parts chart_data ;;
  Ok (with_context self (Some (str_join nl parts))).

(** Lines 124-127 (and 167-170): the system instruction of a chat call. *)
Definition context_truthy (c : option string) : bool :=
  match c with
  | Some s => negb (String.eqb s "")
  | None => false
  end.

Definition system_content (self : companion) : string :=
  match self.(chart_context) with
  | Some ctx =>
      if context_truthy (Some ctx)
      then self.(system_prompt) ++ nl ++ nl ++ "---" ++ nl ++ nl
           ++ "CURRENT CHART CONTEXT:" ++ nl ++ ctx
      else self.(system_prompt)
  | None => self.(system_prompt)
  end.

(** [get_suggested_prompts] *)
Definition generic_prompts : list string :=
  ["Tell me about my sun sign";
   "What does my moon sign mean?";
   "How do I read my natal chart?";
   "What are the most important placements?";
   "Explain houses in astrology"].

Definition closing_prompts : list string :=
  ["What stands out most in my chart?";
   "How can I work with my chart's challenges?";
   "What are my natural strengths according to my chart?"].

Definition get_suggested_prompts (chart_data : pyval) : result (list string) :=
  if negb (py_truthy chart_data) then Ok generic_prompts else
  success <- py_get chart_data "success" PNone ;;
  if negb (py_truthy success) then Ok generic_prompts else
  placements <- py_get chart_data "placements" (PDict nil) ;;
  has_sun <- py_contains placements "Sun" ;;
  p_sun <- (if has_sun then
              sun <- py_getitem placements "Sun" ;;
              sun_sign <- py_getitem sun "sign" ;;
              Ok ["What does my Sun in " ++ py_str sun_sign ++ " mean for my identity?"]
            else Ok nil) ;;
  has_moon <- py_contains placements "Moon" ;;
  p_moon <- (if has_moon then
               moon <- py_getitem placements "Moon" ;;
               moon_sign <- py_getitem moon "sign" ;;
               Ok ["Tell me about my Moon in " ++ py_str moon_sign]
             else Ok nil) ;;
  has_venus <- py_contains placements "Venus" ;;
  p_venus <- (if has_venus then
                venus <- py_getitem placements "Venus" ;;
                venus_house <- py_getitem venus "house" ;;
                Ok ["What does Venus in my " ++ py_str venus_house
                    ++ "th house say about relationships?"]
              else Ok nil) ;;
  Ok (firstn 6 (p_sun ++ p_moon ++ p_venus ++ closing_prompts))%list.

(** [format_chart_for_display]: the items appended to [lines]; the
    interpretation texts are appended as they are, so [join] checks
    that they are strings. *)
Definition display_placement_line (kv : string * pyval) : result pyval :=
  let '(planet, data) := kv in
  r <- py_get data "retrograde" PNone ;;
  let retro := if py_truthy r then " ℞" else "" in
  sign <- py_getitem data "sign" ;;
  house <- py_getitem data "house" ;;
  Ok (PStr ("- **" ++ planet ++ "**: " ++ py_str sign ++ " (House "
            ++ py_str house ++ ")" ++ retro)).

Definition display_aspect_line (aspect : pyval) : result pyval :=
  p <- py_getitem aspect "planets" ;;
  t <- py_getitem aspect "type" ;;
  Ok (PStr ("- " ++ py_str p ++ ": " ++ py_str t)).

Definition display_lines (chart_data : pyval) : result (list pyval) :=
  name <- py_getitem chart_data "name" ;;
  bd <- py_getitem chart_data "birth_data" ;;
  date <- py_getitem bd "date" ;;
  bd2 <- py_getitem chart_data "birth_data" ;;
  time <- py_getitem bd2 "time" ;;
  bd3 <- py_getitem chart_data "birth_data" ;;
  location <- py_getitem bd3 "location" ;;
  let head := map PStr
    ["# Natal Chart: " ++ py_str name; "";
     "**Birth:** " ++ py_str date ++ " at " ++ py_str time;
     "**Location:** " ++ py_str location; ""; "## Core Identity"; ""] in
  has_interp <- py_contains chart_data "interpretation" ;;
  interp <- (if has_interp then
               i <- py_getitem chart_data "interpretation" ;;
               vs <- py_values i ;;
               Ok (flat_map (fun text => [text; PStr ""]) vs)
             else Ok nil) ;;
  let pl_head := [PStr "## Planetary Placements"; PStr ""] in
  has_pl <- py_contains chart_data "placements" ;;
  pls <- (if has_pl then
            p <- py_getitem chart_data "placements" ;;
            its <- py_items p ;;
            ls <- rmap display_placement_line its ;;
            Ok (ls ++ [PStr ""])%list
          else Ok nil) ;;
  asp <- py_get chart_data "aspects" PNone ;;
  aspects <- (if py_truthy asp then
                a <- py_getitem chart_data "aspects" ;;
                top <- py_slice_to 5 a ;;
                xs <- py_iter top ;;
                ls <- rmap display_aspect_line xs ;;
                Ok (PStr "## Major Aspects" :: PStr "" :: ls ++ [PStr ""])%list
              else Ok nil) ;;
  Ok (head ++ interp ++ pl_head ++ pls ++ aspects)%list.

Definition format_chart_for_display (chart_data : pyval) : result string :=
  success <- py_get chart_data "success" PNone ;;
  if negb (py_truthy success) then Ok "No chart data available." else
  lines <- display_lines chart_data ;;
  py_str_join nl lines.

(** *** The chat calls *)

(** Python list objects live in a heap, so that the aliasing of the
    caller's [conversation_history] list is visible. *)
Definition loc := nat.

Record heap : Type := {
  cells : gmap loc (list pyval);
  next_loc : loc
}.

Definition heap_alloc (h : heap) (xs : list pyval) : heap * loc :=
  ({| cells := <[h.(next_loc) := xs]> h.(cells); next_loc := S h.(next_loc) |},
   h.(next_loc)).

Definition heap_contents (h : heap) (l : loc) : list pyval :=
  default nil (h.(cells) !! l).

(** [lst.append(x)] *)
Definition heap_append (h : heap) (l : loc) (x : pyval) : heap :=
  {| cells := <[l := (heap_contents h l ++ [x])%list]> h.(cells);
     next_loc := h.(next_loc) |}.

Definition user_turn (message : string) : pyval :=
  PDict [("role", PStr "user"); ("content", PStr message)].

(** Lines 116-122 / 159-165:
    [messages = conversation_history or []; messages.append(...)]. *)
Definition prepare_messages (h : heap) (conversation_history : option loc)
    (message : string) : heap * loc :=
  let '(h1, messages) :=
    match conversation_history with
    | Some l => if py_truthy (PList (heap_contents h l)) then (h, l) else heap_alloc h nil
    | None => heap_alloc h nil
    end in
  (heap_append h1 messages (user_turn message), messages).

(** What [client.messages.create] / [client.messages.stream] receive. *)
Record request : Type := {
  req_model : string;
  req_max_tokens : Z;
  req_system : string;
  req_messages : list pyval
}.

Definition build_request (self : companion) (h : heap) (messages : loc) : request :=
  {| req_model := self.(model); req_max_tokens := self.(max_tokens);
     req_system := system_content self; req_messages := heap_contents h messages |}.

(** Content blocks of a [Message] response: text blocks and the other
    kinds (tool use, thinking, ...), which have no [text] attribute. *)
Inductive block : Type :=
| TextBlock (text : string)
| OtherBlock (class_name : string).

(** The provider's answer to [messages.create]: the response's
    [content] list, or the exception the call raised. *)
Definition create_api := request -> result (list block).

(** [response.content[0].text] *)
Definition first_text (content : list block) : result string :=
  match content with
  | nil => Raise (IndexError "list index out of range")
  | TextBlock t :: _ => Ok t
  | OtherBlock c :: _ =>
      Raise (AttributeError ("'" ++ c ++ "' object has no attribute 'text'"))
  end.

(** The two [except] clauses. *)
Definition error_text (e : exc) : string :=
  match e with
  | APIError _ => "API Error: " ++ exc_str e ++ ". Please check your API key and try again."
  | _ => "Error: " ++ exc_str e
  end.

(** [try: body except APIError ... except Exception ...] returning. *)
Definition try_return (body : result string) : result string :=
  match body with
  | Ok s => Ok s
  | Raise e => Ok (error_text e)
  end.

(** [AstrologyCompanion.chat]: the heap after the call and the outcome. *)
Definition chat (create : create_api) (self : companion) (h : heap)
    (message : string) (conversation_history : option loc) : heap * result string :=
  let '(h1, messages) := prepare_messages h conversation_history message in
  let req := build_request self h1 messages in
  (h1, try_return (content <- create req ;; first_text content)).

(** The provider's [text_stream]: text deltas in arrival order, a raised
    exception ending it (when opening the stream fails, it is the first
    event). *)
Inductive stream_event : Type :=
| Delta (text : string)
| Fail (e : exc).

Definition stream_api := request -> list stream_event.

(** [for text in stream.text_stream: yield text] inside the [try]; an
    exception leaves the loop for the [except] clause, which yields once,
    and the generator ends. *)
Fixpoint drain (evs : list stream_event) : list string :=
  match evs with
  | nil => nil
  | Delta t :: rest => t :: drain rest
  | Fail e :: _ => [error_text e]
  end.

(** Calling the generator function [chat_stream] runs none of its body:
    it only captures its arguments. *)
Record stream_gen : Type := {
  gen_self : companion;
  gen_message : string;
  gen_history : option loc
}.

Definition chat_stream (self : companion) (message : string)
    (conversation_history : option loc) : stream_gen :=
  {| gen_self := self; gen_message := message; gen_history := conversation_history |}.

(** Driving the generator to exhaustion: the heap afterwards and the
    chunks it yields. *)
Definition run_stream (open : stream_api) (g : stream_gen) (h : heap) : heap * list string :=
  let '(h1, messages) := prepare_messages h g.(gen_history) g.(gen_message) in
  let req := build_request g.(gen_self) h1 messages in
  (h1, drain (open req)).

(* ===================================================================== *)
(** ** natal_backend.py: chart generation *)
(* ===================================================================== *)

(** An object of the astrology engine, seen through [hasattr]/[getattr]:
    its attributes by name. The point objects it exposes (planets,
    houses) support [.get], so they are dictionaries here. *)
Definition pyobj := list (string * pyval).

Definition hasattr (o : pyobj) (a : string) : bool :=
  match assoc a o with Some _ => true | None => false end.

Definition getattr (o : pyobj) (a : string) : result pyval :=
  match assoc a o with
  | Some v => Ok v
  | None => Raise (AttributeError ("object has no attribute '" ++ a ++ "'"))
  end.

Definition rflat_map {A B} (f : A -> result (list B)) (xs : list A) : result (list B) :=
  yss <- rmap f xs ;; Ok (concat yss).

Definition planets : list (string * string) :=
  [("sun", "Sun"); ("moon", "Moon"); ("mercury", "Mercury"); ("venus", "Venus");
   ("mars", "Mars"); ("jupiter", "Jupiter"); ("saturn", "Saturn");
   ("uranus", "Uranus"); ("neptune", "Neptune"); ("pluto", "Pluto");
   ("mean_node", "North Node")].

(** [NatalChartGenerator._extract_placements]: a list of dicts, each
    carrying its planet name under the key ["planet"]. *)
Definition extract_placements (subject : pyobj) : result pyval :=
  main <- rflat_map (fun '(attr_name, planet_name) =>
            if hasattr subject attr_name then
              planet_obj <- getattr subject attr_name ;;
              sign <- py_get planet_obj "sign" (PStr "Unknown") ;;
              position <- py_get planet_obj "position" (PInt 0) ;;
              house <- py_get planet_obj "house" (PStr "Unknown") ;;
              retro <- py_get planet_obj "retrograde" (PBool false) ;;
              Ok [PDict [("planet", PStr planet_name); ("sign", sign);
                         ("position", position); ("house", house);
                         ("retrograde", retro)]]
            else Ok nil) planets ;;
  if hasattr subject "first_house" then
    fh <- getattr subject "first_house" ;;
    sign <- py_get fh "sign" (PStr "Unknown") ;;
    fh2 <- getattr subject "first_house" ;;
    position <- py_get fh2 "position" (PInt 0) ;;
    Ok (PList (PDict [("planet", PStr "Ascendant (Rising)"); ("sign", sign);
                      ("position", position); ("house", PStr "1");
                      ("retrograde", PBool false)] :: main))
  else Ok (PList main).

(** [_extract_aspects] *)
Definition extract_aspects (aspects : pyobj) : result pyval :=
  if hasattr aspects "all_aspects" then
    all <- getattr aspects "all_aspects" ;;
    xs <- py_iter all ;;
    l <- rmap (fun aspect =>
           p1 <- py_get aspect "p1_name" (PStr "Unknown") ;;
           p2 <- py_get aspect "p2_name" (PStr "Unknown") ;;
           t <- py_get aspect "aspect" (PStr "Unknown") ;;
           o <- py_get aspect "orbit" (PInt 0) ;;
           d <- py_get aspect "aspect_degrees" (PInt 0) ;;
           Ok (PDict [("planet1", p1); ("planet2", p2); ("aspect_type", t);
                      ("orb", o); ("aspect_degrees", d)])) xs ;;
    Ok (PList l)
  else Ok (PList nil).

(** [_extract_houses] *)
Definition extract_houses (subject : pyobj) : result pyval :=
  l <- rflat_map (fun i =>
         let house_attr := if (1 <? i)%nat then "house" ++ string_of_N (N.of_nat i)
                           else "first_house" in
         if hasattr subject house_attr then
           house_obj <- getattr subject house_attr ;;
           sign <- py_get house_obj "sign" (PStr "Unknown") ;;
           position <- py_get house_obj "position" (PInt 0) ;;
           Ok [PDict [("house", PInt (Z.of_nat i)); ("sign", sign); ("position", position)]]
         else Ok nil) (seq 1 12) ;;
  Ok (PList l).

(** [interpretations.get(sign, default)] on one of the sign tables. *)
Definition table_get (table : list (string * string)) (sign : pyval) (dflt : string)
    : result string :=
  match sign with
  | PStr s => Ok (default dflt (assoc s table))
  | PList _ => Raise (TypeError "unhashable type: 'list'")
  | PDict _ => Raise (TypeError "unhashable type: 'dict'")
  | _ => Ok dflt
  end.

Definition sun_table : list (string * string) :=
  [("Aries", "Bold, pioneering, and action-oriented. You lead with courage and initiative.");
   ("Taurus", "Grounded, patient, and values-driven. You seek stability and sensory pleasure.");
   ("Gemini", "Curious, communicative, and adaptable. You thrive on variety and mental stimulation.");
   ("Cancer", "Nurturing, intuitive, and emotionally deep. You value home and emotional security.");
   ("Leo", "Confident, creative, and expressive. You shine through self-expression and generosity.");
   ("Virgo", "Analytical, practical, and service-oriented. You excel through precision and helpfulness.");
   ("Libra", "Diplomatic, harmonious, and relationship-focused. You seek balance and beauty.");
   ("Scorpio", "Intense, transformative, and emotionally powerful. You dive deep and transform.");
   ("Sagittarius", "Adventurous, philosophical, and optimistic. You seek meaning and expansion.");
   ("Capricorn", "Ambitious, disciplined, and achievement-oriented. You build lasting structures.");
   ("Aquarius", "Innovative, humanitarian, and individualistic. You envision progressive futures.");
   ("Pisces", "Compassionate, imaginative, and spiritually attuned. You dissolve boundaries.")].

Definition moon_table : list (string * string) :=
  [("Aries", "Emotional courage and quick feelings. You need independence and action.");
   ("Taurus", "Emotional stability and comfort-seeking. You need security and sensory ease.");
   ("Gemini", "Emotionally curious and communicative. You need variety and mental connection.");
   ("Cancer", "Deeply nurturing and protective. You need emotional safety and family bonds.");
   ("Leo", "Emotionally warm and expressive. You need recognition and creative outlets.");
   ("Virgo", "Emotionally practical and analytical. You need order and useful service.");
   ("Libra", "Emotionally balanced and relational. You need harmony and partnership.");
   ("Scorpio", "Emotionally intense and private. You need depth and transformative connection.");
   ("Sagittarius", "Emotionally optimistic and free. You need adventure and philosophical meaning.");
   ("Capricorn", "Emotionally controlled and responsible. You need structure and achievement.");
   ("Aquarius", "Emotionally detached and humanitarian. You need freedom and intellectual stimulation.");
   ("Pisces", "Emotionally empathic and boundless. You need spiritual connection and creativity.")].

Definition rising_table : list (string * string) :=
  [("Aries", "You appear bold, direct, and energetic. First impression: pioneering and confident.");
   ("Taurus", "You appear calm, reliable, and grounded. First impression: stable and pleasant.");
   ("Gemini", "You appear curious, witty, and versatile. First impression: quick and engaging.");
   ("Cancer", "You appear gentle, protective, and empathetic. First impression: caring and sensitive.");
   ("Leo", "You appear confident, warm, and charismatic. First impression: radiant and generous.");
   ("Virgo", "You appear modest, helpful, and analytical. First impression: precise and thoughtful.");
   ("Libra", "You appear charming, diplomatic, and graceful. First impression: balanced and pleasant.");
   ("Scorpio", "You appear intense, magnetic, and private. First impression: powerful and mysterious.");
   ("Sagittarius", "You appear optimistic, adventurous, and open. First impression: friendly and philosophical.");
   ("Capricorn", "You appear serious, professional, and reserved. First impression: responsible and mature.");
   ("Aquarius", "You appear unique, friendly, and progressive. First impression: unconventional and interesting.");
   ("Pisces", "You appear gentle, dreamy, and compassionate. First impression: ethereal and artistic.")].

(** [_generate_interpretation] *)
Definition generate_interpretation (subject : pyobj) : result pyval :=
  sun <- (if hasattr subject "sun" then
            o <- getattr subject "sun" ;; s <- py_get o "sign" (PStr "") ;;
            t <- table_get sun_table s "Core identity and life force expression." ;;
            Ok [("sun", PStr t)]
          else Ok nil) ;;
  moon <- (if hasattr subject "moon" then
             o <- getattr subject "moon" ;; s <- py_get o "sign" (PStr "") ;;
             t <- table_get moon_table s "Emotional nature and instinctual responses." ;;
             Ok [("moon", PStr t)]
           else Ok nil) ;;
  rising <- (if hasattr subject "first_house" then
               o <- getattr subject "first_house" ;; s <- py_get o "sign" (PStr "") ;;
               t <- table_get rising_table s "Your outward persona and approach to life." ;;
               Ok [("rising", PStr t)]
             else Ok nil) ;;
  Ok (PDict (sun ++ moon ++ rising)%list).

(** [PurePosixPath] parsing: the components of a path string (split at
    "/", empty and "." components dropped) and its root ("//" for
    exactly two leading slashes, "/" for one or more than two). *)
Fixpoint split_slash (acc : list ascii) (cs : list ascii) : list string :=
  match cs with
  | nil => [string_of_list_ascii (rev acc)]
  | c :: cs' =>
      if Ascii.eqb c "/"%char then string_of_list_ascii (rev acc) :: split_slash nil cs'
      else split_slash (c :: acc) cs'
  end.

Definition path_parts (s : string) : list string :=
  List.filter (fun p => negb (String.eqb p "" || String.eqb p "."))
    (split_slash nil (list_ascii_of_string s)).

Definition path_root (s : string) : string :=
  match list_ascii_of_string s with
  | a :: rest =>
      if negb (Ascii.eqb a "/"%char) then "" else
      match rest with
      | b :: rest' =>
          if negb (Ascii.eqb b "/"%char) then "/" else
          match rest' with
          | c :: _ => if Ascii.eqb c "/"%char then "/" else "//"
          | nil => "//"
          end
      | nil => "/"
      end
  | nil => ""
  end.

Definition path_str (root : string) (parts : list string) : string :=
  match root, parts with
  | EmptyString, nil => "."
  | _, _ => root ++ str_join "/" parts
  end.

(** [str(Path(base) / name)]: an absolute [name] replaces [base]. *)
Definition path_div (base name : string) : string :=
  if negb (String.eqb (path_root name) "") then path_str (path_root name) (path_parts name)
  else path_str (path_root base) (path_parts base ++ path_parts name).

(** [name.replace(' ', '_')] *)
Fixpoint space_to_underscore (s : string) : string :=
  match s with
  | EmptyString => EmptyString
  | String c s' =>
      String (if Ascii.eqb c " "%char then "_"%char else c) (space_to_underscore s')
  end.

(** The engine calls of lines 41-59 ([AstrologicalSubject],
    [KerykeionChartSVG(...).makeSVG()], [NatalAspects]): the subject and
    the aspects object, or the exception one of them raised. *)
Definition engine_output := result (pyobj * pyobj).

(** [NatalChartGenerator.generate_chart] *)
Definition generate_chart (engine : engine_output) (name : string)
    (year month day hour minute : Z) (latitude longitude : pyval)
    (timezone : string) (city : pyval) : pyval :=
  let body :=
    so <- engine ;;
    let '(subject, aspects) := so in
    let svg_path := path_div "output" (space_to_underscore name ++ "_chart.svg") in
    placements <- extract_placements subject ;;
    asps <- extract_aspects aspects ;;
    houses <- extract_houses subject ;;
    interpretation <- generate_interpretation subject ;;
    Ok (PDict
      [("success", PBool true);
       ("name", PStr name);
       ("birth_data", PDict
          [("date", PStr (str_of_Z year ++ "-" ++ fmt_0d 2 month ++ "-" ++ fmt_0d 2 day));
           ("time", PStr (fmt_0d 2 hour ++ ":" ++ fmt_0d 2 minute));
           ("city", if py_truthy city then city else PStr "Unknown");
           ("latitude", latitude);
           ("longitude", longitude);
           ("timezone", PStr timezone)]);
       ("placements", placements);
       ("aspects", asps);
       ("houses", houses);
       ("chart_svg_path", PStr svg_path);
       ("interpretation", interpretation)]) in
  match body with
  | Ok d => d
  | Raise e => PDict [("success", PBool false); ("message", PStr (exc_str e))]
  end.

(* ===================================================================== *)
(** ** app.py: the process-wide chart state *)
(* ===================================================================== *)

(** The module globals: [current_chart_data] and the companion holding
    [chart_context]. *)
Record app_state : Type := {
  current_chart_data : pyval;
  ai_companion : companion
}.

(** The state at import time ([current_chart_data = None],
    [self.chart_context = None]). *)
Definition initial_state (base_prompt : string) : app_state :=
  {| current_chart_data := PNone;
     ai_companion := {| model := "claude-3-5-sonnet-20241022"; max_tokens := 4096;
                        system_prompt := base_prompt; chart_context := None |} |}.

(** [generate_natal_chart]: the globals afterwards and the returned
    triple (SVG path or None, chart text, status), or the exception that
    escapes to the UI framework. [path_exists] is [Path(p).exists()]. *)
Definition generate_natal_chart (engine : engine_output) (path_exists : pyval -> bool)
    (st : app_state) (name : string) (year month day hour minute : Z)
    (city : string) (latitude longitude : pyval) (timezone : string)
    : app_state * result (pyval * string * string) :=
  if String.eqb name "" || String.eqb city "" then
    (st, Ok (PNone, "Please provide both name and city.", "⚠ Missing required fields"))
  else
  let res := generate_chart engine name year month day hour minute
               latitude longitude timezone (PStr city) in
  match py_get res "success" PNone with
  | Raise e => (st, Raise e)
  | Ok success =>
    if negb (py_truthy success) then
      match py_get res "message" (PStr "Unknown error occurred") with
      | Raise e => (st, Raise e)
      | Ok error_msg => (st, Ok (PNone, "Error: " ++ py_str error_msg, "❌ Chart generation failed"))
      end
    else
    let st1 := {| current_chart_data := res; ai_companion := st.(ai_companion) |} in
    match set_chart_context st1.(ai_companion) res with
    | Raise e => (st1, Raise e)
    | Ok c =>
      let st2 := {| current_chart_data := res; ai_companion := c |} in
      (st2, chart_text <- format_chart_for_display res ;;
            chart_svg <- py_get res "chart_svg" PNone ;;
            if py_truthy chart_svg && path_exists chart_svg then
              Ok (chart_svg, chart_text, "✓ Chart generated for " ++ name)
            else Ok (PNone, chart_text, "⚠ Chart generated but SVG not found"))
    end
  end.

(** [chat_with_companion] (and every chat call) leaves the globals as they
    are: its only effect on them is through [chat_stream], which reads
    the companion. One chat turn driven to exhaustion: *)
Definition chat_turn (open : stream_api) (st : app_state) (h : heap)
    (message : string) (history : option loc) : app_state * heap * list string :=
  let '(h', chunks) := run_stream open (chat_stream st.(ai_companion) message history) h in
  (st, h', chunks).

(* ===================================================================== *)
(** ** Concrete inputs *)
(* ===================================================================== *)

Definition planet_point (sign house : string) (retro : bool) : pyval :=
  PDict [("sign", PStr sign); ("position", PFloat "12.5");
         ("house", PStr house); ("retrograde", PBool retro)].

(** A subject as the engine returns it for a birth chart. *)
Definition sample_subject : pyobj :=
  [("sun", planet_point "Leo" "Fifth_House" false);
   ("moon", planet_point "Pis" "Twelfth_House" false);
   ("venus", planet_point "Vir" "Seventh_House" true);
   ("first_house", PDict [("sign", PStr "Ari"); ("position", PFloat "3.25")])].

Definition sample_aspects : pyobj := [("all_aspects", PList nil)].

Definition sample_engine : engine_output := Ok (sample_subject, sample_aspects).

Definition sample_chart : pyval :=
  generate_chart sample_engine "Ada" 1990 8 15 14 30 (PFloat "51.5") (PFloat "-0.12")
    "Europe/London" (PStr "London").

(* ===================================================================== *)
(** ** The chart record of the spec (section 3) and the spec's formulas *)
(* ===================================================================== *)

Definition is_some {A} (o : option A) : bool :=
  match o with Some _ => true | None => false end.

Definition has_keys (v : pyval) (ks : list string) : bool :=
  match v with
  | PDict kvs => forallb (fun k => is_some (assoc k kvs)) ks
  | _ => false
  end.

Definition is_str (v : pyval) : bool :=
  match v with PStr _ => true | _ => false end.

Definition is_dict (v : pyval) : bool :=
  match v with PDict _ => true | _ => false end.

(** A line of the formatters' bulleted lists. *)
Definition dash_line (s : string) : Prop := exists t, s = "- " ++ t.

(** A successful chart record with the field shapes the consumers read:
    a name, birth data with date, time and location, placements as a
    mapping from planet name to a record with sign and house, the
    interpretation as a mapping to texts, aspects as a sequence of
    records with planets, type and orb (the last three may be absent). *)
Definition wf_chart (cd : pyval) : bool :=
  match cd with
  | PDict kvs =>
      py_truthy (default PNone (assoc "success" kvs)) &&
      is_some (assoc "name" kvs) &&
      match assoc "birth_data" kvs with
      | Some bd => has_keys bd ["date"; "time"; "location"]
      | None => false
      end &&
      match assoc "placements" kvs with
      | None => true
      | Some (PDict pkvs) => forallb (fun kv => has_keys (snd kv) ["sign"; "house"]) pkvs
      | Some _ => false
      end &&
      match assoc "interpretation" kvs with
      | None => true
      | Some (PDict ikvs) => forallb (fun kv => is_str (snd kv)) ikvs
      | Some _ => false
      end &&
      match assoc "aspects" kvs with
      | None => true
      | Some (PList xs) => forallb (fun a => has_keys a ["planets"; "type"; "orb"]) xs
      | Some _ => false
      end
  | _ => false
  end.

(** The text of a field of a record, as [f"{d[f]}"] renders it. *)
Definition field_str (d : pyval) (f : string) : string :=
  match py_getitem d f with Ok v => py_str v | Raise _ => "" end.

(** The aspect lines of the spec: ["- {planetPair}: {aspectType} (orb: {orbDegrees}°)"]
    in the context block, ["- {planetPair}: {aspectType}"] in the display. *)
Definition spec_context_aspect (a : pyval) : string :=
  "- " ++ field_str a "planets" ++ ": " ++ field_str a "type"
  ++ " (orb: " ++ field_str a "orb" ++ "°)".

Definition spec_display_aspect (a : pyval) : string :=
  "- " ++ field_str a "planets" ++ ": " ++ field_str a "type".

(** The sections of the context block that the headers introduce. *)
Definition themes_section (kvs : list (string * pyval)) : list string :=
  match assoc "interpretation" kvs with
  | Some (PDict ikvs) => "" :: "KEY THEMES:" :: map (fun kv => "- " ++ py_str (snd kv)) ikvs
  | _ => nil
  end.

Definition aspects_section (kvs : list (string * pyval)) : list string :=
  match assoc "aspects" kvs with
  | Some (PList (x :: xs')) =>
      "" :: "MAJOR ASPECTS:" :: map spec_context_aspect (firstn 5 (x :: xs'))
  | _ => nil
  end.

Definition display_aspects_section (kvs : list (string * pyval)) : list string :=
  match assoc "aspects" kvs with
  | Some (PList (x :: xs')) =>
      ("## Major Aspects" :: "" :: map spec_display_aspect (firstn 5 (x :: xs')) ++ [""])%list
  | _ => nil
  end.

(** [composeSystemPrompt] as the spec words it. *)
Definition spec_separator : string := nl ++ nl ++ "---" ++ nl ++ nl.

Definition spec_compose_system_prompt (base : string) (ctx : option string) : string :=
  match ctx with
  | None => base
  | Some c => base ++ spec_separator ++ "CURRENT CHART CONTEXT:" ++ nl ++ c
  end.

(** [suggestedPrompts] for a chart whose placements form a mapping, as
    the spec words it. *)
Definition spec_suggested_prompts (placements : list (string * pyval)) : list string :=
  let sun := match assoc "Sun" placements with
             | Some d => ["What does my Sun in " ++ field_str d "sign" ++ " mean for my identity?"]
             | None => nil end in
  let moon := match assoc "Moon" placements with
              | Some d => ["Tell me about my Moon in " ++ field_str d "sign"]
              | None => nil end in
  let venus := match assoc "Venus" placements with
               | Some d => ["What does Venus in my " ++ field_str d "house"
                            ++ "th house say about relationships?"]
               | None => nil end in
  firstn 6 (sun ++ moon ++ venus ++ closing_prompts)%list.

(** Companions reachable from the constructor through [set_chart_context]
    calls that return (chat calls do not change the companion). *)
Inductive reachable (base : string) : companion -> Prop :=
| reach_init m t :
    reachable base {| model := m; max_tokens := t; system_prompt := base; chart_context := None |}
| reach_set c cd c' :
    reachable base c -> set_chart_context c cd = Ok c' -> reachable base c'.

(** Heaps whose allocated cells all lie below the allocation pointer. *)
Definition heap_wf (h : heap) : Prop :=
  forall l, is_Some (h.(cells) !! l) -> l < h.(next_loc).

(** Further concrete inputs. *)
Definition empty_heap : heap := {| cells := ∅; next_loc := 0 |}.

Definition sample_companion : companion := ai_companion (initial_state "You are an astrologer.").

Definition spec_chart (placements interpretation aspects : pyval) : pyval :=
  PDict [("success", PBool true); ("name", PStr "Ada");
         ("birth_data", PDict [("date", PStr "1990-08-15"); ("time", PStr "14:30");
                               ("location", PStr "London")]);
         ("placements", placements); ("interpretation", interpretation);
         ("aspects", aspects)].

(** The sample companion after [set_chart_context] on a successful
    chart. *)
Definition contexted_companion : companion :=
  match set_chart_context sample_companion
          (spec_chart (PDict [("Sun", PDict [("sign", PStr "Leo"); ("house", PInt 5)])])
                      (PDict [("sun", PStr "Confident")]) (PList nil)) with
  | Ok c => c
  | Raise _ => sample_companion
  end.

Definition sample_aspect (i : nat) : pyval :=
  PDict [("planets", PStr ("P" ++ string_of_N (N.of_nat i))); ("type", PStr "trine");
         ("orb", PFloat "1.5")].

(* ===================================================================== *)
(** ** The rest of the three modules *)
(* ===================================================================== *)

(** *** chat_companion.py: [AstrologyCompanion.__init__] *)

(** The fallback of [_load_system_prompt] (lines 51-54): the
    triple-quoted literal keeps its line breaks and indentation. *)
Definition fallback_system_prompt : string :=
  "You are a warm, insightful astrology companion. " ++ nl ++
  "            Help users understand their natal chart through personalized, " ++ nl ++
  "            empowering conversations. Reference their specific placements " ++ nl ++
  "            when available.".

(** [_load_system_prompt]: [prompt_file] is the text of
    [prompts/astrologer_system.md] when that file exists. *)
Definition load_system_prompt (prompt_file : option string) : string :=
  match prompt_file with
  | Some text => text
  | None => fallback_system_prompt
  end.

(** Truthiness of an optional string ([None] or a [str]). *)
Definition opt_truthy (o : option string) : bool :=
  match o with
  | Some s => negb (String.eqb s "")
  | None => false
  end.

Definition api_key_missing : string :=
  "ANTHROPIC_API_KEY not found. Please set it in your .env file or pass it directly.".

(** [AstrologyCompanion(api_key)]: [getenv] is [os.getenv] after
    [load_dotenv()], [py_int] is Python's [int()] on a string (it may
    raise [ValueError]); the [ValueError] of line 28 is an [OtherError]
    carrying its message. *)
Definition companion_init (py_int : string -> result Z) (getenv : string -> option string)
    (prompt_file : option string) (api_key : option string) : result companion :=
  let key := if opt_truthy api_key then api_key else getenv "ANTHROPIC_API_KEY" in
  if negb (opt_truthy key) then Raise (OtherError api_key_missing) else
  let mdl := default "claude-3-5-sonnet-20241022" (getenv "CLAUDE_MODEL") in
  mt <- py_int (default "4096" (getenv "MAX_TOKENS")) ;;
  Ok {| model := mdl; max_tokens := mt; system_prompt := load_system_prompt prompt_file;
        chart_context := None |}.

(** *** app.py: [chat_with_companion] *)

(** The code points of a Python [str], from the UTF-8 bytes that stand
    for it here (a truncated sequence, which no encoding produces, ends
    the decoding with its lead byte). *)
Fixpoint utf8_decode (bs : list ascii) : list N :=
  match bs with
  | nil => nil
  | b0 :: rest =>
      let n0 := N_of_ascii b0 in
      if N.ltb n0 128 then n0 :: utf8_decode rest else
      match rest with
      | b1 :: rest1 =>
          let n1 := N.land (N_of_ascii b1) 63 in
          if N.ltb n0 224 then N.lor (N.shiftl (N.land n0 31) 6) n1 :: utf8_decode rest1 else
          match rest1 with
          | b2 :: rest2 =>
              let n2 := N.land (N_of_ascii b2) 63 in
              if N.ltb n0 240
              then N.lor (N.shiftl (N.land n0 15) 12) (N.lor (N.shiftl n1 6) n2) :: utf8_decode rest2
              else
              match rest2 with
              | b3 :: rest3 =>
                  N.lor (N.shiftl (N.land n0 7) 18)
                    (N.lor (N.shiftl n1 12) (N.lor (N.shiftl n2 6) (N.land (N_of_ascii b3) 63)))
                  :: utf8_decode rest3
              | nil => [n0]
              end
          | nil => [n0]
          end
      | nil => [n0]
      end
  end.

(** [str.isspace] on a code point: tab to carriage return, the
    separators U+001C-U+001F, space, U+0085, U+00A0, U+1680,
    U+2000-U+200A, U+2028, U+2029, U+202F, U+205F and U+3000. *)
Definition py_isspace (n : N) : bool :=
  (N.leb 9 n && N.leb n 13) || (N.leb 28 n && N.leb n 32) || N.eqb n 133 || N.eqb n 160
  || N.eqb n 5760 || (N.leb 8192 n && N.leb n 8202) || N.eqb n 8232 || N.eqb n 8233
  || N.eqb n 8239 || N.eqb n 8287 || N.eqb n 12288.

(** [not message.strip()]: every code point is whitespace. *)
Definition is_blank (s : string) : bool :=
  forallb py_isspace (utf8_decode (list_ascii_of_string s)).

(** [user_msg, bot_msg = item]; the [ValueError]s are [OtherError]s
    carrying their message. *)
Definition unpack2 (v : pyval) : result (pyval * pyval) :=
  match py_iter v with
  | Ok [a; b] => Ok (a, b)
  | Ok xs =>
      if (2 <? List.length xs)%nat
      then Raise (OtherError "too many values to unpack (expected 2)")
      else Raise (OtherError ("not enough values to unpack (expected 2, got "
                              ++ string_of_N (N.of_nat (List.length xs)) ++ ")"))
  | Raise _ => Raise (TypeError ("cannot unpack non-iterable " ++ type_name v ++ " object"))
  end.

Definition turn (role : string) (content : pyval) : pyval :=
  PDict [("role", PStr role); ("content", content)].

(** One iteration of the loop of lines 94-98: the turns it appends. *)
Definition history_turns (item : pyval) : result (list pyval) :=
  p <- unpack2 item ;;
  let '(user_msg, bot_msg) := p in
  Ok ((if py_truthy user_msg then [turn "user" user_msg] else nil)
      ++ (if py_truthy bot_msg then [turn "assistant" bot_msg] else nil))%list.

(** Lines 93-98: the Gradio history converted to API turns. *)
Definition convert_history (history : pyval) : result (list pyval) :=
  items <- py_iter history ;;
  rflat_map history_turns items.

(** Lines 101-104: [full_response += chunk; yield full_response]. *)
Fixpoint accumulate (full_response : string) (chunks : list string) : list string :=
  match chunks with
  | nil => nil
  | chunk :: rest => (full_response ++ chunk) :: accumulate (full_response ++ chunk) rest
  end.

(** [chat_with_companion] driven to exhaustion by the UI: the heap
    afterwards and the values it yields, or the exception its loop
    raises. [conversation_history] is a fresh list; it is put in the
    heap once built (a list dropped by an exception is unreachable). *)
Definition chat_with_companion (open : stream_api) (st : app_state) (h : heap)
    (message : string) (history : pyval) : heap * result (list string) :=
  if is_blank message then (h, Ok nil) else
  match convert_history history with
  | Raise e => (h, Raise e)
  | Ok turns =>
      let '(h1, conversation_history) := heap_alloc h turns in
      let '(h2, chunks) :=
        run_stream open (chat_stream st.(ai_companion) message (Some conversation_history)) h1 in
      (h2, Ok (accumulate "" chunks))
  end.

(** *** app.py: [get_chart_status] and [load_suggested_prompts] *)

Definition no_chart_status : string :=
  "⚠ No chart loaded - generate a chart first for personalized insights".

Definition get_chart_status (st : app_state) : result string :=
  let cd := st.(current_chart_data) in
  loaded <- (if py_truthy cd then
               s <- py_get cd "success" PNone ;; Ok (py_truthy s)
             else Ok false) ;;
  if loaded then
    name <- py_get cd "name" (PStr "Unknown") ;;
    Ok ("✓ Chart loaded: " ++ py_str name)
  else Ok no_chart_status.

Definition load_suggested_prompts (st : app_state) : result (list (list string)) :=
  prompts <- get_suggested_prompts st.(current_chart_data) ;;
  Ok (map (fun p => [p]) prompts).

(** *** Readers for the statements below *)

(** [d.get(k)] on a dict, [None] for a missing key or a non-dict. *)
Definition dict_field (v : pyval) (k : string) : option pyval :=
  match v with
  | PDict kvs => assoc k kvs
  | _ => None
  end.

Definition hist_contents (h : heap) (hist : option loc) : list pyval :=
  match hist with
  | Some l => heap_contents h l
  | None => nil
  end.

Definition is_digit (c : ascii) : bool :=
  Nat.leb 48 (nat_of_ascii c) && Nat.leb (nat_of_ascii c) 57.

(** The value of a string of decimal digits. *)
Fixpoint digits_value (acc : Z) (cs : list ascii) : Z :=
  match cs with
  | nil => acc
  | c :: cs' => digits_value (acc * 10 + (Z.of_nat (nat_of_ascii c) - 48)) cs'
  end.

(** A field of [n] decimal digits whose value is [z]. *)
Definition decimal_field (n : nat) (s : string) (z : Z) : bool :=
  Nat.eqb (String.length s) n && forallb is_digit (list_ascii_of_string s)
  && Z.eqb (digits_value 0 (list_ascii_of_string s)) z.

(* ===================================================================== *)
(** ** Lemmas on the Python primitives *)
(* ===================================================================== *)

Create HintDb pyval_db.

Ltac rbind_cases H :=
  repeat match type of H with
  | context [rbind ?m _] =>
      let E := fresh "E" in destruct m eqn:E; simpl in H; try discriminate H
  end.

Lemma rmap_ok_map {A B} (f : A -> result B) (g : A -> B) (xs : list A) :
  (forall x, In x xs -> f x = Ok (g x)) -> rmap f xs = Ok (map g xs).
Proof.
  induction xs as [|x xs IH]; intros Hf; simpl; [reflexivity|].
  rewrite (Hf x (or_introl eq_refl)); simpl.
  rewrite IH by (intros y Hy; apply Hf; right; exact Hy). reflexivity.
Qed.

Lemma rmap_Forall {A B} (f : A -> result B) (P : B -> Prop) (xs : list A) (ys : list B) :
  (forall x y, f x = Ok y -> P y) -> rmap f xs = Ok ys -> Forall P ys.
Proof.
  revert ys; induction xs as [|x xs IH]; intros ys Hf H; simpl in H.
  - injection H as <-. constructor.
  - destruct (f x) as [y|e] eqn:Ey; simpl in H; [|discriminate].
    destruct (rmap f xs) as [zs|e] eqn:Ez; simpl in H; [|discriminate].
    injection H as <-. constructor; [eapply Hf; exact Ey | apply IH; auto].
Qed.

Lemma existsb_key_assoc {A} (kvs : list (string * A)) (k : string) :
  existsb (fun kv => String.eqb (fst kv) k) kvs = is_some (assoc k kvs).
Proof.
  induction kvs as [|[k' v] kvs IH]; simpl; [reflexivity|].
  rewrite String.eqb_sym. destruct (String.eqb k k'); [reflexivity|exact IH].
Qed.

Lemma py_join_items_map (l : list string) : py_join_items (map PStr l) = Ok l.
Proof. induction l as [|x l IH]; simpl; [reflexivity|]. rewrite IH. reflexivity. Qed.

Lemma append_nonempty (x y : string) : x <> "" -> x ++ y <> "".
Proof. destruct x; simpl; [contradiction|discriminate]. Qed.

Lemma str_join_nonempty (sep x : string) (rest : list string) :
  x <> "" -> str_join sep (x :: rest) <> "".
Proof.
  intros Hx. destruct rest as [|y rest]; simpl; [exact Hx|]. apply append_nonempty, Hx.
Qed.

Lemma has_keys_getitem (d : pyval) (ks : list string) (k : string) :
  has_keys d ks = true -> In k ks ->
  exists v, py_getitem d k = Ok v /\ field_str d k = py_str v.
Proof.
  destruct d as [| | | | | |dk]; simpl; try discriminate.
  intros H Hin. rewrite forallb_forall in H. specialize (H k Hin).
  unfold field_str; simpl.
  destruct (assoc k dk) as [v|]; [|discriminate]. exists v. split; reflexivity.
Qed.

Lemma has_keys_dict (d : pyval) (ks : list string) :
  has_keys d ks = true -> exists dk, d = PDict dk.
Proof. destruct d; simpl; try discriminate. intros _. eexists; reflexivity. Qed.

Lemma forallb_assoc {A} (P : A -> bool) (kvs : list (string * A)) (k : string) (v : A) :
  forallb (fun kv => P (snd kv)) kvs = true -> assoc k kvs = Some v -> P v = true.
Proof.
  induction kvs as [|[k' w] kvs IH]; simpl; [discriminate|].
  intros H Ha. apply andb_prop in H as [Hw Hr].
  destruct (String.eqb k k'); [injection Ha as <-; exact Hw | exact (IH Hr Ha)].
Qed.

#[local] Hint Resolve append_nonempty str_join_nonempty : pyval_db.

(** [set_chart_context] only ever stores [None] or a non-empty text, and
    keeps the other fields. *)
Lemma context_parts_head (cd : pyval) (parts : list string) :
  context_parts cd = Ok parts -> exists x rest, parts = x :: rest /\ x <> "".
Proof.
  unfold context_parts. intros H. rbind_cases H.
  injection H as <-. eexists _, _. split; [reflexivity|].
  apply append_nonempty. discriminate.
Qed.

Lemma set_chart_context_shape (c c' : companion) (cd : pyval) :
  set_chart_context c cd = Ok c' ->
  system_prompt c' = system_prompt c /\ model c' = model c /\
  max_tokens c' = max_tokens c /\
  (chart_context c' = None \/ exists s, chart_context c' = Some s /\ s <> "").
Proof.
  unfold set_chart_context. intros H.
  destruct (negb (py_truthy cd)).
  { injection H as <-. simpl. auto. }
  destruct (py_get cd "success" PNone) as [a|e]; simpl in H; [|discriminate].
  destruct (negb (py_truthy a)).
  { injection H as <-. simpl. auto. }
  destruct (context_parts cd) as [parts|e] eqn:E; simpl in H; [|discriminate].
  injection H as <-. simpl.
  destruct (context_parts_head _ _ E) as (x & rest & -> & Hx).
  repeat split; auto. right. eexists; split; [reflexivity|].
  apply str_join_nonempty, Hx.
Qed.

Lemma reachable_shape (base : string) (c : companion) :
  reachable base c ->
  system_prompt c = base /\
  (chart_context c = None \/ exists s, chart_context c = Some s /\ s <> "").
Proof.
  induction 1 as [m t|c cd c' Hr IH Hs].
  - simpl. auto.
  - destruct (set_chart_context_shape _ _ _ Hs) as (Hp & _ & _ & Hc).
    rewrite Hp. destruct IH as [IH _]. auto.
Qed.

Lemma system_content_spec (base : string) (c : companion) :
  reachable base c ->
  system_content c = spec_compose_system_prompt base (chart_context c).
Proof.
  intros Hr. destruct (reachable_shape _ _ Hr) as [Hb [Hn | (s & Hs & Hne)]];
    unfold system_content, spec_compose_system_prompt, spec_separator;
    rewrite ?Hn, ?Hs, Hb; [reflexivity|].
  unfold context_truthy. destruct (String.eqb s "") eqn:E.
  - apply String.eqb_eq in E. contradiction.
  - reflexivity.
Qed.

Lemma py_get_dict (kvs : list (string * pyval)) (k : string) (d : pyval) :
  py_get (PDict kvs) k d = Ok (default d (assoc k kvs)).
Proof. unfold py_get. destruct (assoc k kvs); reflexivity. Qed.

Lemma py_contains_dict (kvs : list (string * pyval)) (k : string) :
  py_contains (PDict kvs) k = Ok (is_some (assoc k kvs)).
Proof. unfold py_contains. rewrite existsb_key_assoc. reflexivity. Qed.

Lemma py_getitem_dict (kvs : list (string * pyval)) (k : string) (v : pyval) :
  assoc k kvs = Some v -> py_getitem (PDict kvs) k = Ok v.
Proof. intros H. unfold py_getitem. rewrite H. reflexivity. Qed.

Lemma dict_truthy (kvs : list (string * pyval)) (k : string) (v : pyval) :
  assoc k kvs = Some v -> py_truthy (PDict kvs) = true.
Proof. destruct kvs; [discriminate|reflexivity]. Qed.

Lemma truthy_success_some (kvs : list (string * pyval)) :
  py_truthy (default PNone (assoc "success" kvs)) = true ->
  exists v, assoc "success" kvs = Some v.
Proof. destruct (assoc "success" kvs); [eauto|discriminate]. Qed.

Ltac use_field Hk key :=
  let v := fresh "v" in let Hg := fresh "Hg" in let Hf := fresh "Hf" in
  destruct (has_keys_getitem _ _ key Hk ltac:(simpl; tauto)) as (v & Hg & Hf);
  rewrite Hg; cbn [rbind]; rewrite Hf.

(* ===================================================================== *)
(** ** The claims *)
(* ===================================================================== *)

(** C5: for every chat call, single-shot or streaming, on a companion
    reachable from the constructor, the only request handed to the
    provider carries as system instruction the base prompt when no chart
    context is set, and otherwise the base prompt, the separator
    "\n\n---\n\n", the header "CURRENT CHART CONTEXT:\n" and the stored
    context, computed from the companion at the time of the call. *)
Theorem chat_system_instruction (base : string) (c : companion) :
  reachable base c ->
  (forall (create : create_api) (h : heap) (message : string) (hist : option loc),
     exists r, req_system r = spec_compose_system_prompt base (chart_context c) /\
       snd (chat create c h message hist) = try_return (content <- create r ;; first_text content)) /\
  (forall (open : stream_api) (h : heap) (message : string) (hist : option loc),
     exists r, req_system r = spec_compose_system_prompt base (chart_context c) /\
       snd (run_stream open (chat_stream c message hist) h) = drain (open r)).
Proof.
  intros Hr. split.
  - intros create h message hist. unfold chat.
    destruct (prepare_messages h hist message) as [h1 m].
    exists (build_request c h1 m). split; [apply system_content_spec, Hr | reflexivity].
  - intros open h message hist. unfold run_stream, chat_stream; simpl.
    destruct (prepare_messages h hist message) as [h1 m].
    exists (build_request c h1 m). split; [apply system_content_spec, Hr | reflexivity].
Qed.

Lemma chat_system_instruction_witness :
  reachable "You are an astrologer." contexted_companion /\
  exists ctx r, chart_context contexted_companion = Some ctx /\
    req_system r = "You are an astrologer." ++ spec_separator ++ "CURRENT CHART CONTEXT:" ++ nl ++ ctx /\
    snd (chat (fun _ => Ok [TextBlock "hi"]) contexted_companion empty_heap "q" None) = Ok "hi".
Proof.
  assert (Hr : reachable "You are an astrologer." contexted_companion).
  { apply (reach_set _ sample_companion
             (spec_chart (PDict [("Sun", PDict [("sign", PStr "Leo"); ("house", PInt 5)])])
                         (PDict [("sun", PStr "Confident")]) (PList nil))).
    - constructor.
    - vm_compute. reflexivity. }
  split; [exact Hr|].
  destruct (proj1 (chat_system_instruction _ _ Hr) (fun _ => Ok [TextBlock "hi"]) empty_heap "q" None)
    as (r & Hs & Hc).
  exists (match chart_context contexted_companion with Some c => c | None => "" end), r.
  split; [vm_compute; reflexivity|]. split.
  - rewrite Hs. vm_compute. reflexivity.
  - rewrite Hc. reflexivity.
Defined.

(** C6 (amended): for every chart record (a dict) whose success field is
    absent or false, [format_chart_for_display] returns exactly
    "No chart data available.", and [set_chart_context] on it, or on an
    absent record, sets the stored context to None and changes nothing
    else. *)
Theorem unsuccessful_chart_no_data (kvs : list (string * pyval)) (c : companion) :
  py_truthy (default PNone (assoc "success" kvs)) = false ->
  format_chart_for_display (PDict kvs) = Ok "No chart data available." /\
  set_chart_context c (PDict kvs) = Ok (with_context c None) /\
  set_chart_context c PNone = Ok (with_context c None).
Proof.
  intros Hs. unfold format_chart_for_display, set_chart_context.
  rewrite !py_get_dict. cbn [rbind]. rewrite Hs. cbn [negb].
  split; [reflexivity|]. split; [|reflexivity].
  destruct (py_truthy (PDict kvs)); reflexivity.
Qed.

Lemma unsuccessful_chart_no_data_witness :
  format_chart_for_display (PDict [("success", PBool false); ("message", PStr "boom")])
    = Ok "No chart data available." /\
  set_chart_context sample_companion (PDict [("success", PBool false); ("message", PStr "boom")])
    = Ok (with_context sample_companion None).
Proof.
  destruct (unsuccessful_chart_no_data [("success", PBool false); ("message", PStr "boom")]
              sample_companion eq_refl) as (H1 & H2 & _).
  split; [exact H1 | exact H2].
Defined.

(** C6 counterexample: [format_chart_for_display] on an absent record
    (None) raises [AttributeError] instead of returning the message. *)
Lemma format_display_absent_record_raises :
  format_chart_for_display PNone = Raise (AttributeError "'NoneType' object has no attribute 'get'") /\
  format_chart_for_display PNone <> Ok "No chart data available.".
Proof. split; [reflexivity | discriminate]. Qed.

(** C7: with a successful chart whose placements form a mapping of
    records with sign and house, [get_suggested_prompts] returns, in
    construction order, the Sun-sign question iff "Sun" is a key, the
    Moon-sign question iff "Moon" is, the Venus-house question iff
    "Venus" is, then the three closing questions, truncated to 6 entries
    (so at most 6); with an absent or unsuccessful chart it returns the
    fixed 5-item generic list. *)
Theorem suggested_prompts_by_chart (kvs pkvs : list (string * pyval)) :
  py_truthy (default PNone (assoc "success" kvs)) = true ->
  default (PDict nil) (assoc "placements" kvs) = PDict pkvs ->
  forallb (fun kv => has_keys (snd kv) ["sign"; "house"]) pkvs = true ->
  get_suggested_prompts (PDict kvs) = Ok (spec_suggested_prompts pkvs) /\
  List.length (spec_suggested_prompts pkvs) <= 6 /\
  get_suggested_prompts PNone = Ok generic_prompts /\
  (forall kvs' : list (string * pyval),
     py_truthy (default PNone (assoc "success" kvs')) = false ->
     get_suggested_prompts (PDict kvs') = Ok generic_prompts).
Proof.
  intros Hs Hp Hw. split; [|split; [|split]].
  - destruct (truthy_success_some _ Hs) as [sv Hsv].
    unfold get_suggested_prompts, spec_suggested_prompts.
    rewrite (dict_truthy _ _ _ Hsv). cbn [negb].
    rewrite py_get_dict. cbn [rbind]. rewrite Hs. cbn [negb].
    rewrite py_get_dict. cbn [rbind]. rewrite Hp.
    rewrite !py_contains_dict. cbn [rbind].
    destruct (assoc "Sun" pkvs) as [ds|] eqn:Hsun; cbn [is_some];
      [rewrite (py_getitem_dict _ _ _ Hsun); cbn [rbind];
       use_field (forallb_assoc (fun d => has_keys d ["sign"; "house"]) _ _ _ Hw Hsun) "sign" | cbn [rbind]];
    (destruct (assoc "Moon" pkvs) as [dm|] eqn:Hmoon; cbn [is_some];
      [rewrite (py_getitem_dict _ _ _ Hmoon); cbn [rbind];
       use_field (forallb_assoc (fun d => has_keys d ["sign"; "house"]) _ _ _ Hw Hmoon) "sign" | cbn [rbind]]);
    (destruct (assoc "Venus" pkvs) as [dv|] eqn:Hvenus; cbn [is_some];
      [rewrite (py_getitem_dict _ _ _ Hvenus); cbn [rbind];
       use_field (forallb_assoc (fun d => has_keys d ["sign"; "house"]) _ _ _ Hw Hvenus) "house" | cbn [rbind]]);
    reflexivity.
  - unfold spec_suggested_prompts. rewrite length_firstn. lia.
  - reflexivity.
  - intros kvs' Hs'. unfold get_suggested_prompts.
    destruct (py_truthy (PDict kvs')); [|reflexivity]. cbn [negb].
    rewrite py_get_dict. cbn [rbind]. rewrite Hs'. reflexivity.
Qed.

Lemma suggested_prompts_by_chart_witness :
  get_suggested_prompts
    (PDict [("success", PBool true);
            ("placements", PDict [("Sun", PDict [("sign", PStr "Leo"); ("house", PInt 5)]);
                                  ("Moon", PDict [("sign", PStr "Pisces"); ("house", PInt 12)]);
                                  ("Venus", PDict [("sign", PStr "Virgo"); ("house", PInt 7)])])])
  = Ok ["What does my Sun in Leo mean for my identity?";
        "Tell me about my Moon in Pisces";
        "What does Venus in my 7th house say about relationships?";
        "What stands out most in my chart?";
        "How can I work with my chart's challenges?";
        "What are my natural strengths according to my chart?"].
Proof.
  destruct (suggested_prompts_by_chart
    [("success", PBool true);
     ("placements", PDict [("Sun", PDict [("sign", PStr "Leo"); ("house", PInt 5)]);
                           ("Moon", PDict [("sign", PStr "Pisces"); ("house", PInt 12)]);
                           ("Venus", PDict [("sign", PStr "Virgo"); ("house", PInt 7)])])]
    [("Sun", PDict [("sign", PStr "Leo"); ("house", PInt 5)]);
     ("Moon", PDict [("sign", PStr "Pisces"); ("house", PInt 12)]);
     ("Venus", PDict [("sign", PStr "Virgo"); ("house", PInt 7)])]
    eq_refl eq_refl eq_refl) as [H _].
  rewrite H. vm_compute. reflexivity.
Defined.

(* ===================================================================== *)
(** ** The context and display formatters on spec-shaped charts *)
(* ===================================================================== *)

Lemma rmap_exists {A B C} (f : A -> result B) (g : C -> B) (P : C -> Prop) (xs : list A) :
  (forall x, In x xs -> exists y, f x = Ok (g y) /\ P y) ->
  exists ys, rmap f xs = Ok (map g ys) /\ Forall P ys.
Proof.
  induction xs as [|x xs IH]; intros Hf; simpl.
  - exists nil. split; [reflexivity | constructor].
  - destruct (Hf x (or_introl eq_refl)) as (y & Hy & Py). rewrite Hy. cbn [rbind].
    destruct IH as (ys & Hys & Pys); [intros z Hz; apply Hf; right; exact Hz|].
    rewrite Hys. exists (y :: ys). split; [reflexivity | constructor; assumption].
Qed.

Lemma in_firstn_in {A} (n : nat) (l : list A) (x : A) : In x (firstn n l) -> In x l.
Proof.
  intros H. rewrite <- (firstn_skipn n l). apply in_or_app. left. exact H.
Qed.

Lemma forallb_in {A} (P : A -> bool) (l : list A) (x : A) :
  forallb P l = true -> In x l -> P x = true.
Proof. rewrite forallb_forall. auto. Qed.

Lemma placement_line_ok (kv : string * pyval) :
  has_keys (snd kv) ["sign"; "house"] = true ->
  exists t, placement_line kv = Ok t /\ dash_line t.
Proof.
  destruct kv as [k d]; simpl. intros Hk.
  destruct (has_keys_dict _ _ Hk) as [dk ->].
  unfold placement_line. rewrite py_get_dict. cbn [rbind].
  destruct (has_keys_getitem _ _ "sign" Hk ltac:(simpl; tauto)) as (vs & Hs & _).
  destruct (has_keys_getitem _ _ "house" Hk ltac:(simpl; tauto)) as (vh & Hh & _).
  rewrite Hs; cbn [rbind]. rewrite Hh; cbn [rbind].
  eexists. split; [reflexivity|]. eexists. reflexivity.
Qed.

Lemma display_placement_line_ok (kv : string * pyval) :
  has_keys (snd kv) ["sign"; "house"] = true ->
  exists t, display_placement_line kv = Ok (PStr t) /\ True.
Proof.
  destruct kv as [k d]; simpl. intros Hk.
  destruct (has_keys_dict _ _ Hk) as [dk ->].
  unfold display_placement_line. rewrite py_get_dict. cbn [rbind].
  destruct (has_keys_getitem _ _ "sign" Hk ltac:(simpl; tauto)) as (vs & Hs & _).
  destruct (has_keys_getitem _ _ "house" Hk ltac:(simpl; tauto)) as (vh & Hh & _).
  rewrite Hs; cbn [rbind]. rewrite Hh; cbn [rbind].
  eexists. split; reflexivity.
Qed.

Lemma context_aspect_line_ok (a : pyval) :
  has_keys a ["planets"; "type"; "orb"] = true ->
  context_aspect_line a = Ok (spec_context_aspect a).
Proof.
  intros Hk. unfold context_aspect_line, spec_context_aspect.
  use_field Hk "planets". use_field Hk "type". use_field Hk "orb". reflexivity.
Qed.

Lemma display_aspect_line_ok (a : pyval) :
  has_keys a ["planets"; "type"; "orb"] = true ->
  display_aspect_line a = Ok (PStr (spec_display_aspect a)).
Proof.
  intros Hk. unfold display_aspect_line, spec_display_aspect.
  use_field Hk "planets". use_field Hk "type". reflexivity.
Qed.

Lemma interp_items_str (ikvs : list (string * pyval)) :
  forallb (fun kv => is_str (snd kv)) ikvs = true ->
  flat_map (fun text => [text; PStr ""]) (map snd ikvs)
  = map PStr (flat_map (fun kv => [py_str (snd kv); ""]) ikvs).
Proof.
  induction ikvs as [|[k v] ikvs IH]; simpl; [reflexivity|].
  intros H. apply andb_prop in H as [Hv Hr].
  destruct v; try discriminate Hv. simpl. rewrite IH by exact Hr. reflexivity.
Qed.

Ltac wf_split H :=
  unfold wf_chart in H; rewrite !andb_true_iff in H;
  let H1 := fresh "Hsucc" in let H2 := fresh "Hname" in let H3 := fresh "Hbirth" in
  let H4 := fresh "Hpl" in let H5 := fresh "Hint" in let H6 := fresh "Hasp" in
  destruct H as [[[[[H1 H2] H3] H4] H5] H6].

(** On a spec-shaped chart, [context_parts] is the fixed head (ending in
    the PLACEMENTS header), one "- " line per placement, the themes
    section and the aspects section. *)
Lemma context_parts_wf (kvs : list (string * pyval)) :
  wf_chart (PDict kvs) = true ->
  exists (a b c d : string) (pls : list string),
    context_parts (PDict kvs) =
      Ok (app ["User's Natal Chart - " ++ a; "Birth: " ++ b ++ " at " ++ c; "Location: " ++ d;
               ""; "PLACEMENTS:"] (app pls (app (themes_section kvs) (aspects_section kvs)))) /\
    Forall dash_line pls.
Proof.
  intros H. wf_split H. unfold context_parts.
  destruct (assoc "name" kvs) as [nv|] eqn:Hn; [|discriminate Hname].
  rewrite (py_getitem_dict _ _ _ Hn); cbn [rbind].
  destruct (assoc "birth_data" kvs) as [bd|] eqn:Hbd; [|discriminate Hbirth].
  rewrite !(py_getitem_dict _ _ _ Hbd); cbn [rbind].
  destruct (has_keys_getitem _ _ "date" Hbirth ltac:(simpl; tauto)) as (vd & Hd & _).
  destruct (has_keys_getitem _ _ "time" Hbirth ltac:(simpl; tauto)) as (vt & Ht & _).
  destruct (has_keys_getitem _ _ "location" Hbirth ltac:(simpl; tauto)) as (vl & Hl & _).
  rewrite Hd; cbn [rbind]. rewrite Ht; cbn [rbind]. rewrite Hl; cbn [rbind].
  rewrite py_get_dict. cbn [rbind].
  assert (Hp : exists pls, rbind (py_items (default (PDict nil) (assoc "placements" kvs)))
                             (rmap placement_line) = Ok pls /\ Forall dash_line pls).
  { destruct (assoc "placements" kvs) as [[| | | | | |pkvs]|]; try discriminate Hpl;
      cbn [default py_items rbind].
    - destruct (rmap_exists placement_line (fun s => s) dash_line pkvs) as (ys & Hys & Pys).
      + intros kv Hin. apply placement_line_ok. exact (forallb_in _ _ _ Hpl Hin).
      + rewrite map_id in Hys. eauto.
    - exists nil. split; [reflexivity | constructor]. }
  destruct Hp as (pls & Hpls & Pls).
  destruct (py_items (default (PDict nil) (assoc "placements" kvs))) as [items|e];
    cbn [rbind] in Hpls |- *; [|discriminate Hpls].
  rewrite Hpls; cbn [rbind].
  rewrite py_contains_dict; cbn [rbind].
  unfold themes_section.
  destruct (assoc "interpretation" kvs) as [[| | | | | |ikvs]|] eqn:Hi; try discriminate Hint;
    cbn [is_some]; [rewrite (py_getitem_dict _ _ _ Hi) |]; cbn [rbind py_items].
  all: rewrite py_get_dict; cbn [rbind].
  all: unfold aspects_section.
  all: destruct (assoc "aspects" kvs) as [[| | | | |[|x xs']|]|] eqn:Ha; try discriminate Hasp;
    cbn [default py_truthy negb List.length Nat.eqb].
  all: try (exists (py_str nv), (py_str vd), (py_str vt), (py_str vl), pls; split; [|exact Pls];
            cbn [rbind]; rewrite ?app_nil_r; reflexivity).
  all: rewrite (py_getitem_dict _ _ _ Ha); cbn [rbind py_slice_to py_iter].
  all: rewrite (rmap_ok_map context_aspect_line spec_context_aspect);
    [cbn [rbind]; exists (py_str nv), (py_str vd), (py_str vt), (py_str vl), pls;
     split; [reflexivity | exact Pls]
    | intros a Hin; apply context_aspect_line_ok;
      exact (forallb_in _ _ _ Hasp (in_firstn_in _ _ _ Hin))].
Qed.

(** On a spec-shaped chart, [display_lines] consists of strings only, and
    ends with the display aspects section. *)
Lemma display_lines_wf (kvs : list (string * pyval)) :
  wf_chart (PDict kvs) = true ->
  exists pre : list string,
    display_lines (PDict kvs) = Ok (app (map PStr pre) (map PStr (display_aspects_section kvs))).
Proof.
  intros H. wf_split H. unfold display_lines.
  destruct (assoc "name" kvs) as [nv|] eqn:Hn; [|discriminate Hname].
  rewrite (py_getitem_dict _ _ _ Hn); cbn [rbind].
  destruct (assoc "birth_data" kvs) as [bd|] eqn:Hbd; [|discriminate Hbirth].
  rewrite !(py_getitem_dict _ _ _ Hbd); cbn [rbind].
  destruct (has_keys_getitem _ _ "date" Hbirth ltac:(simpl; tauto)) as (vd & Hd & _).
  destruct (has_keys_getitem _ _ "time" Hbirth ltac:(simpl; tauto)) as (vt & Ht & _).
  destruct (has_keys_getitem _ _ "location" Hbirth ltac:(simpl; tauto)) as (vl & Hl & _).
  rewrite Hd; cbn [rbind]. rewrite Ht; cbn [rbind]. rewrite Hl; cbn [rbind].
  rewrite !py_contains_dict; cbn [rbind].
  set (head := map PStr _).
  assert (Hi : exists its, (if is_some (assoc "interpretation" kvs) then
                  rbind (py_getitem (PDict kvs) "interpretation") (fun i =>
                  rbind (py_values i) (fun vs =>
                  Ok (flat_map (fun text => [text; PStr ""]) vs)))
                else Ok nil) = Ok (map PStr its)).
  { destruct (assoc "interpretation" kvs) as [[| | | | | |ikvs]|] eqn:Hi; try discriminate Hint;
      cbn [is_some]; [|exists nil; reflexivity].
    rewrite (py_getitem_dict _ _ _ Hi); cbn [rbind py_values].
    rewrite (interp_items_str _ Hint). eexists; reflexivity. }
  destruct Hi as (its & Hits). rewrite Hits; cbn [rbind].
  assert (Hp : exists ps, (if is_some (assoc "placements" kvs) then
                  rbind (py_getitem (PDict kvs) "placements") (fun p =>
                  rbind (py_items p) (fun its =>
                  rbind (rmap display_placement_line its) (fun ls =>
                  Ok (app ls [PStr ""]))))
                else Ok nil) = Ok (map PStr ps)).
  { destruct (assoc "placements" kvs) as [[| | | | | |pkvs]|] eqn:Hp; try discriminate Hpl;
      cbn [is_some]; [|exists nil; reflexivity].
    rewrite (py_getitem_dict _ _ _ Hp); cbn [rbind py_items].
    destruct (rmap_exists display_placement_line PStr (fun _ => True) pkvs) as (ys & Hys & _).
    - intros kv Hin. apply display_placement_line_ok. exact (forallb_in _ _ _ Hpl Hin).
    - rewrite Hys; cbn [rbind]. exists (app ys [""]). rewrite map_app. reflexivity. }
  destruct Hp as (ps & Hps). rewrite Hps; cbn [rbind].
  rewrite py_get_dict; cbn [rbind].
  unfold display_aspects_section.
  destruct (assoc "aspects" kvs) as [[| | | | |[|x xs']|]|] eqn:Ha; try discriminate Hasp;
    cbn [default py_truthy negb List.length Nat.eqb].
  all: cbn [rbind]; unfold head.
  all: exists (app ["# Natal Chart: " ++ py_str nv; "";
                    "**Birth:** " ++ py_str vd ++ " at " ++ py_str vt;
                    "**Location:** " ++ py_str vl; ""; "## Core Identity"; ""]
                (app its (app ["## Planetary Placements"; ""] ps))).
  all: rewrite ?(py_getitem_dict _ _ _ Ha); cbn [rbind py_slice_to py_iter].
  all: try rewrite (rmap_ok_map display_aspect_line (fun a => PStr (spec_display_aspect a)))
    by (intros a Hin; apply display_aspect_line_ok;
        exact (forallb_in _ _ _ Hasp (in_firstn_in _ _ _ Hin))).
  all: cbn [rbind id py_truthy negb List.length Nat.eqb].
  all: rewrite !map_app, <- !app_assoc; cbn [map app]; rewrite ?map_app, ?map_map; reflexivity.
Qed.

Lemma wf_success (kvs : list (string * pyval)) :
  wf_chart (PDict kvs) = true ->
  py_truthy (PDict kvs) = true /\ py_get (PDict kvs) "success" PNone = Ok (default PNone (assoc "success" kvs))
  /\ py_truthy (default PNone (assoc "success" kvs)) = true.
Proof.
  intros H. pose proof H as H0. wf_split H0.
  destruct (truthy_success_some _ Hsucc) as [sv Hsv].
  split; [exact (dict_truthy _ _ _ Hsv)|]. split; [apply py_get_dict | exact Hsucc].
Qed.

Lemma set_chart_context_wf (kvs : list (string * pyval)) (c : companion) :
  wf_chart (PDict kvs) = true ->
  exists (a b d e : string) (pls : list string),
    set_chart_context c (PDict kvs) =
      Ok (with_context c (Some (str_join nl
        (app ["User's Natal Chart - " ++ a; "Birth: " ++ b ++ " at " ++ d; "Location: " ++ e;
              ""; "PLACEMENTS:"] (app pls (app (themes_section kvs) (aspects_section kvs))))))) /\
    Forall dash_line pls.
Proof.
  intros H. destruct (wf_success _ H) as (Ht & Hg & Hs).
  destruct (context_parts_wf _ H) as (a & b & d & e & pls & Hc & Hp).
  exists a, b, d, e, pls. split; [|exact Hp].
  unfold set_chart_context. rewrite Ht, Hg. cbn [negb rbind]. rewrite Hs. cbn [negb].
  rewrite Hc. reflexivity.
Qed.

Lemma format_chart_for_display_wf (kvs : list (string * pyval)) :
  wf_chart (PDict kvs) = true ->
  exists pre, format_chart_for_display (PDict kvs) =
    Ok (str_join nl (app pre (display_aspects_section kvs))).
Proof.
  intros H. destruct (wf_success _ H) as (_ & Hg & Hs).
  destruct (display_lines_wf _ H) as (pre & Hd). exists pre.
  unfold format_chart_for_display. rewrite Hg. cbn [rbind]. rewrite Hs. cbn [negb].
  rewrite Hd. cbn [rbind]. unfold py_str_join. rewrite <- map_app, py_join_items_map.
  reflexivity.
Qed.

(** C8: for a successful chart record with the spec's field shapes whose
    aspects sequence has more than 5 entries, the context block built by
    [set_chart_context] ends with the MAJOR ASPECTS section listing exactly
    the first 5 aspects in input order, and the display text of
    [format_chart_for_display] ends with the Major Aspects section listing
    exactly the same 5 aspects in the same order. *)
Theorem aspects_truncated_to_five (kvs : list (string * pyval)) (asps : list pyval)
    (c : companion) :
  wf_chart (PDict kvs) = true ->
  assoc "aspects" kvs = Some (PList asps) ->
  5 < List.length asps ->
  (exists pre, set_chart_context c (PDict kvs) =
     Ok (with_context c (Some (str_join nl
           (app pre ("" :: "MAJOR ASPECTS:" :: map spec_context_aspect (firstn 5 asps))))))) /\
  (exists pre, format_chart_for_display (PDict kvs) =
     Ok (str_join nl
           (app pre ("## Major Aspects" :: "" :: app (map spec_display_aspect (firstn 5 asps)) [""])))) /\
  List.length (firstn 5 asps) = 5.
Proof.
  intros Hw Ha Hl.
  destruct asps as [|x xs']; [simpl in Hl; lia|].
  split; [|split].
  - destruct (set_chart_context_wf _ c Hw) as (a & b & d & e & pls & Hs & _).
    rewrite Hs. unfold aspects_section. rewrite Ha.
    eexists. rewrite !app_assoc. reflexivity.
  - destruct (format_chart_for_display_wf _ Hw) as (pre & Hf).
    rewrite Hf. unfold display_aspects_section. rewrite Ha.
    exists pre. reflexivity.
  - rewrite length_firstn. lia.
Qed.

Lemma aspects_truncated_to_five_witness :
  exists pre, format_chart_for_display
    (spec_chart (PDict nil) (PDict nil) (PList (map sample_aspect (seq 1 8)))) =
    Ok (str_join nl (app pre ["## Major Aspects"; ""; "- P1: trine"; "- P2: trine";
                              "- P3: trine"; "- P4: trine"; "- P5: trine"; ""])).
Proof.
  destruct (aspects_truncated_to_five
    [("success", PBool true); ("name", PStr "Ada");
     ("birth_data", PDict [("date", PStr "1990-08-15"); ("time", PStr "14:30");
                           ("location", PStr "London")]);
     ("placements", PDict nil); ("interpretation", PDict nil);
     ("aspects", PList (map sample_aspect (seq 1 8)))]
    (map sample_aspect (seq 1 8)) sample_companion
    ltac:(vm_compute; reflexivity) ltac:(vm_compute; reflexivity) ltac:(simpl; lia))
    as (_ & (pre & Hf) & _).
  exists pre. exact Hf.
Defined.

(** C9 counterexample: a successful chart with an empty placements mapping,
    an empty interpretation mapping and an empty aspects sequence; the
    context lines keep the PLACEMENTS and KEY THEMES headers (only the
    MAJOR ASPECTS section is left out). *)
Lemma empty_sections_keep_headers :
  let parts := ["User's Natal Chart - Ada"; "Birth: 1990-08-15 at 14:30"; "Location: London";
                ""; "PLACEMENTS:"; ""; "KEY THEMES:"] in
  set_chart_context sample_companion (spec_chart (PDict nil) (PDict nil) (PList nil))
    = Ok (with_context sample_companion (Some (str_join nl parts))) /\
  In "PLACEMENTS:" parts /\ In "KEY THEMES:" parts /\ ~ In "MAJOR ASPECTS:" parts.
Proof.
  intros parts. split; [vm_compute; reflexivity|].
  subst parts. split; [simpl; tauto|]. split; [simpl; tauto|].
  simpl. intros H. repeat destruct H as [H|H]; try discriminate H; exact H.
Qed.

(** C9 (amended): in the context lines built by [set_chart_context] for a
    successful chart with the spec's field shapes, the PLACEMENTS header is
    always present, the KEY THEMES header is present exactly when the
    record has an interpretation field (even an empty one), and the MAJOR
    ASPECTS header is present exactly when the aspects sequence is present
    and non-empty. *)
Theorem context_section_headers (kvs : list (string * pyval)) (c : companion) :
  wf_chart (PDict kvs) = true ->
  exists parts,
    set_chart_context c (PDict kvs) = Ok (with_context c (Some (str_join nl parts))) /\
    In "PLACEMENTS:" parts /\
    (In "KEY THEMES:" parts <-> is_some (assoc "interpretation" kvs) = true) /\
    (In "MAJOR ASPECTS:" parts <-> exists x xs, assoc "aspects" kvs = Some (PList (x :: xs))).
Proof.
  intros Hw. pose proof Hw as Hw'. wf_split Hw'.
  destruct (set_chart_context_wf _ c Hw) as (a & b & d & e & pls & Hs & Hp).
  eexists. split; [exact Hs|].
  assert (Hpls : forall s, In s pls -> s <> "KEY THEMES:" /\ s <> "MAJOR ASPECTS:").
  { intros s Hin. rewrite List.Forall_forall in Hp. destruct (Hp s Hin) as [t ->].
    split; discriminate. }
  assert (Hth : forall s, In s (themes_section kvs) -> s <> "MAJOR ASPECTS:").
  { unfold themes_section. destruct (assoc "interpretation" kvs) as [[| | | | | |ikvs]|];
      simpl; try tauto.
    intros s [<-|[<-|Hin]]; try discriminate.
    apply in_map_iff in Hin as (kv & <- & _). discriminate. }
  assert (Has : forall s, In s (aspects_section kvs) -> s <> "KEY THEMES:").
  { intros str0 Hin. unfold aspects_section in Hin.
    destruct (assoc "aspects" kvs) as [[| | | | |[|x xs']|]|];
      try (simpl in Hin; contradiction).
    destruct Hin as [<-|[<-|Hin]]; try discriminate.
    apply in_map_iff in Hin as (a0 & <- & _). discriminate. }
  split; [|split].
  - apply in_app_iff. left. simpl. tauto.
  - rewrite !in_app_iff. split.
    + intros [H|[H|[H|H]]].
      * simpl in H. repeat destruct H as [H|H]; try discriminate H; contradiction.
      * destruct (Hpls _ H) as [H1 _]. contradiction.
      * unfold themes_section in H.
        destruct (assoc "interpretation" kvs) as [[| | | | | |ikvs]|];
          try discriminate Hint; simpl in H |- *; tauto.
      * destruct (Has _ H). reflexivity.
    + intros Hi. right. right. left. unfold themes_section.
      destruct (assoc "interpretation" kvs) as [[| | | | | |ikvs]|];
        try discriminate Hint; try discriminate Hi. simpl. tauto.
  - rewrite !in_app_iff. split.
    + intros [H|[H|[H|H]]].
      * simpl in H. repeat destruct H as [H|H]; try discriminate H; contradiction.
      * destruct (Hpls _ H) as [_ H1]. contradiction.
      * destruct (Hth _ H). reflexivity.
      * unfold aspects_section in H.
        destruct (assoc "aspects" kvs) as [[| | | | |[|x xs']|]|]; simpl in H; try tauto.
        eauto.
    + intros (x & xs & Ha). right. right. right. unfold aspects_section. rewrite Ha.
      simpl. tauto.
Qed.

Lemma context_section_headers_witness :
  exists parts,
    set_chart_context sample_companion (spec_chart (PDict nil) (PDict nil) (PList nil))
      = Ok (with_context sample_companion (Some (str_join nl parts))) /\
    In "PLACEMENTS:" parts /\ In "KEY THEMES:" parts /\ ~ In "MAJOR ASPECTS:" parts.
Proof.
  destruct (context_section_headers
    [("success", PBool true); ("name", PStr "Ada");
     ("birth_data", PDict [("date", PStr "1990-08-15"); ("time", PStr "14:30");
                           ("location", PStr "London")]);
     ("placements", PDict nil); ("interpretation", PDict nil); ("aspects", PList nil)]
    sample_companion ltac:(vm_compute; reflexivity)) as (parts & Hs & Hp & Hk & Hm).
  exists parts. split; [exact Hs|]. split; [exact Hp|]. split; [apply Hk; reflexivity|].
  intros H. apply Hm in H as (x & xs & Ha). discriminate Ha.
Defined.

(* ===================================================================== *)
(** ** The chat calls: errors, streaming, history aliasing *)
(* ===================================================================== *)

Lemma drain_deltas (ts : list string) (tail : list stream_event) :
  drain (app (map Delta ts) tail) = app ts (drain tail).
Proof. induction ts as [|t ts IH]; simpl; [reflexivity|]. rewrite IH. reflexivity. Qed.

Lemma error_text_shape (e : exc) :
  (error_text e = "API Error: " ++ exc_str e ++ ". Please check your API key and try again." /\
   exists m, e = APIError m) \/
  (error_text e = "Error: " ++ exc_str e /\ forall m, e <> APIError m).
Proof.
  destruct e; simpl; [right; split; [reflexivity | discriminate] ..| left; eauto |].
  right; split; [reflexivity | discriminate].
Qed.

Lemma prefix_app (p x : string) : String.prefix p (p ++ x) = true.
Proof.
  induction p as [|a p IH]; simpl; [destruct x; reflexivity|].
  destruct (ascii_dec a a); [exact IH | contradiction].
Qed.

Lemma error_text_prefix (e : exc) :
  String.prefix "API Error: " (error_text e) = true \/ String.prefix "Error: " (error_text e) = true.
Proof. destruct e; unfold error_text; [right ..| left | right]; apply prefix_app. Qed.

Lemma chat_heap (create : create_api) (c : companion) (h : heap) (message : string)
    (hist : option loc) :
  fst (chat create c h message hist) = fst (prepare_messages h hist message).
Proof. unfold chat. destruct (prepare_messages h hist message). reflexivity. Qed.

Lemma run_stream_heap (open : stream_api) (c : companion) (h : heap) (message : string)
    (hist : option loc) :
  fst (run_stream open (chat_stream c message hist) h) = fst (prepare_messages h hist message).
Proof. unfold run_stream, chat_stream; simpl. destruct (prepare_messages h hist message). reflexivity. Qed.

(** C2 counterexample: a stream that delivers "Hel" and then fails with an
    API error yields the partial text and then the error chunk. *)
Lemma stream_partial_text_then_error :
  snd (run_stream (fun _ => [Delta "Hel"; Fail (APIError "overloaded")])
         (chat_stream sample_companion "hi" None) empty_heap)
  = ["Hel"; "API Error: overloaded. Please check your API key and try again."] /\
  List.length (snd (run_stream (fun _ => [Delta "Hel"; Fail (APIError "overloaded")])
         (chat_stream sample_companion "hi" None) empty_heap)) <> 1.
Proof. split; [vm_compute; reflexivity | vm_compute; discriminate]. Qed.

(** C2 (amended): the chunks of [chat_stream] are the text deltas the
    provider delivered, in order; when the stream fails (on opening or
    after some deltas), the deltas received before the failure are
    followed by exactly one chunk beginning "API Error: " or "Error: ",
    and the sequence ends there. *)
Theorem chat_stream_failure_chunks (open : stream_api) (c : companion) (h : heap)
    (message : string) (hist : option loc) :
  exists r,
    snd (run_stream open (chat_stream c message hist) h) = drain (open r) /\
    (forall ts, open r = map Delta ts -> drain (open r) = ts) /\
    (forall ts e rest, open r = app (map Delta ts) (Fail e :: rest) ->
       drain (open r) = app ts [error_text e] /\
       (String.prefix "API Error: " (error_text e) = true \/
        String.prefix "Error: " (error_text e) = true)).
Proof.
  unfold run_stream, chat_stream; simpl.
  destruct (prepare_messages h hist message) as [h1 m].
  exists (build_request c h1 m). split; [reflexivity|]. split.
  - intros ts Ho. rewrite Ho, <- (app_nil_r (map Delta ts)), drain_deltas. apply app_nil_r.
  - intros ts e rest Ho. rewrite Ho, drain_deltas. split; [reflexivity | apply error_text_prefix].
Qed.

Lemma chat_stream_failure_chunks_witness :
  snd (run_stream (fun _ => [Fail (OtherError "timed out")])
         (chat_stream sample_companion "hi" None) empty_heap) = ["Error: timed out"].
Proof.
  destruct (chat_stream_failure_chunks (fun _ => [Fail (OtherError "timed out")])
              sample_companion empty_heap "hi" None) as (r & Hr & _ & Hf).
  rewrite Hr. destruct (Hf nil (OtherError "timed out") nil eq_refl) as [Hd _].
  rewrite Hd. reflexivity.
Defined.

(** C3: [chat] never raises: when the provider call raises, it returns
    "API Error: " (for API errors) or "Error: " followed by the cause;
    when it succeeds with the reply a plain text request receives (a
    content list of one text block), it returns that text, the full
    reply; when the content is empty or its first block has no text, it
    returns a string beginning "Error: ". *)
Theorem chat_never_raises (create : create_api) (c : companion) (h : heap)
    (message : string) (hist : option loc) :
  exists r s,
    snd (chat create c h message hist) = Ok s /\
    (forall e, create r = Raise e ->
       (s = "API Error: " ++ exc_str e ++ ". Please check your API key and try again." /\
        exists m, e = APIError m) \/
       (s = "Error: " ++ exc_str e /\ forall m, e <> APIError m)) /\
    (forall t, create r = Ok [TextBlock t] -> s = t) /\
    (forall content, create r = Ok content -> (forall t rest, content <> TextBlock t :: rest) ->
       String.prefix "Error: " s = true).
Proof.
  unfold chat. destruct (prepare_messages h hist message) as [h1 m].
  exists (build_request c h1 m). cbn [snd].
  destruct (create (build_request c h1 m)) as [content|e] eqn:Hc; cbn [rbind try_return].
  - destruct content as [|[t|cl] rest]; cbn [first_text try_return].
    + eexists. split; [reflexivity|]. split; [discriminate|]. split; [discriminate|].
      intros _ _ _. reflexivity.
    + eexists. split; [reflexivity|]. split; [discriminate|].
      split; [intros t' H; injection H as -> _; reflexivity|].
      intros content H Hn. injection H as <-. exfalso. exact (Hn t rest eq_refl).
    + eexists. split; [reflexivity|]. split; [discriminate|]. split; [discriminate|].
      intros _ _ _. reflexivity.
  - eexists. split; [reflexivity|]. split; [|split; discriminate].
    intros e' H. injection H as <-. apply error_text_shape.
Qed.

Lemma chat_never_raises_witness :
  snd (chat (fun _ => Raise (APIError "401 invalid x-api-key")) sample_companion
         empty_heap "hi" None)
  = Ok "API Error: 401 invalid x-api-key. Please check your API key and try again.".
Proof.
  destruct (chat_never_raises (fun _ => Raise (APIError "401 invalid x-api-key"))
              sample_companion empty_heap "hi" None) as (r & s & Hs & He & _).
  rewrite Hs. destruct (He _ eq_refl) as [[-> _] | [_ Hn]];
    [reflexivity | destruct (Hn _ eq_refl)].
Defined.

Lemma prepare_messages_contents (h : heap) (l : loc) (xs : list pyval) (message : string) :
  heap_wf h -> h.(cells) !! l = Some xs ->
  heap_contents (fst (prepare_messages h (Some l) message)) l =
  (if py_truthy (PList xs) then app xs [user_turn message] else xs).
Proof.
  intros Hwf Hl.
  assert (Hc : heap_contents h l = xs) by (unfold heap_contents; rewrite Hl; reflexivity).
  unfold prepare_messages. rewrite Hc.
  destruct (py_truthy (PList xs)) eqn:Ht; cbn [fst]; unfold heap_append, heap_alloc.
  - unfold heap_contents at 1; cbn [cells]. rewrite lookup_insert_eq, Hc. reflexivity.
  - assert (Hlt : l < next_loc h) by (apply Hwf; exists xs; exact Hl).
    unfold heap_contents; cbn [fst cells next_loc].
    cbn [fst cells]. rewrite lookup_insert_ne by lia. rewrite lookup_insert_ne by lia. rewrite Hl. reflexivity.
Qed.

(** C10 counterexample: an empty history list is falsy, so [or []]
    builds a fresh list; the caller's empty list is left as it was. *)
Lemma empty_history_not_mutated :
  heap_contents (fst (chat (fun _ => Ok [TextBlock "hi"]) sample_companion
     {| cells := ({[0 := nil]} : gmap loc (list pyval)); next_loc := 1 |} "q" (Some 0))) 0 = nil.
Proof. vm_compute. reflexivity. Qed.

(** C10 (amended): for a caller's history list that is non-empty, [chat]
    and the run of the [chat_stream] generator append the user turn to
    that very list in place (creating the generator does not touch the
    heap, the append happens when it first runs); for an empty history
    list, a fresh list is used and the caller's list stays empty. *)
Theorem history_aliasing (create : create_api) (open : stream_api) (c : companion)
    (h : heap) (message : string) (l : loc) (xs : list pyval) :
  heap_wf h -> h.(cells) !! l = Some xs ->
  (xs <> nil ->
     heap_contents (fst (chat create c h message (Some l))) l = app xs [user_turn message] /\
     heap_contents (fst (run_stream open (chat_stream c message (Some l)) h)) l =
       app xs [user_turn message]) /\
  (xs = nil ->
     heap_contents (fst (chat create c h message (Some l))) l = nil /\
     heap_contents (fst (run_stream open (chat_stream c message (Some l)) h)) l = nil).
Proof.
  intros Hwf Hl. rewrite chat_heap, run_stream_heap, (prepare_messages_contents h l xs) by assumption.
  split.
  - intros Hne. destruct xs as [|x xs]; [contradiction|]. split; reflexivity.
  - intros ->. split; reflexivity.
Qed.

Lemma history_aliasing_witness :
  heap_contents (fst (chat (fun _ => Ok [TextBlock "hi"]) sample_companion
     {| cells := ({[0 := [user_turn "hello"]]} : gmap loc (list pyval)); next_loc := 1 |}
     "q" (Some 0))) 0 = [user_turn "hello"; user_turn "q"].
Proof.
  refine (proj1 (proj1 (history_aliasing (fun _ => Ok [TextBlock "hi"]) (fun _ => nil)
    sample_companion {| cells := ({[0 := [user_turn "hello"]]} : gmap loc (list pyval)); next_loc := 1 |}
    "q" 0 [user_turn "hello"] _ _) _)).
  - intros l' Hs. cbn [cells next_loc] in *. destruct l' as [|l']; [lia|].
    rewrite lookup_singleton_ne in Hs by lia. destruct Hs as [? Hs]. discriminate.
  - reflexivity.
  - discriminate.
Defined.

(* ===================================================================== *)
(** ** The generator's chart record and its consumers *)
(* ===================================================================== *)

Lemma rbind_post {A B} (m : result A) (k : A -> result B) (P : B -> Prop) :
  (forall x y, k x = Ok y -> P y) -> forall y, rbind m k = Ok y -> P y.
Proof. intros Hk y H. destruct m as [x|e]; simpl in H; [exact (Hk x y H) | discriminate]. Qed.

Lemma Forall_concat_lists {A} (P : A -> Prop) (xss : list (list A)) :
  Forall (Forall P) xss -> Forall P (concat xss).
Proof.
  induction 1 as [|xs xss Hxs _ IH]; simpl; [constructor|].
  apply List.Forall_app; split; assumption.
Qed.

(** [_extract_placements] returns a list whose items are dicts. *)
Lemma extract_placements_list (subject : pyobj) (v : pyval) :
  extract_placements subject = Ok v ->
  exists ps, v = PList ps /\ Forall (fun p => is_dict p = true) ps.
Proof.
  unfold extract_placements, rflat_map.
  destruct (rmap _ planets) as [yss|e] eqn:E; cbn [rbind]; [|discriminate].
  assert (Hm : Forall (fun p => is_dict p = true) (concat yss)).
  { apply Forall_concat_lists. refine (rmap_Forall _ _ planets yss _ E).
    intros [attr_name planet_name] ys.
    destruct (hasattr subject attr_name); [|intros H; injection H as <-; constructor].
    revert ys. repeat (apply rbind_post; intros ?; cbv beta).
    intros ys H. injection H as <-. repeat constructor. }
  destruct (hasattr subject "first_house").
  - revert v. repeat (apply rbind_post; intros ?; cbv beta).
    intros v H. injection H as <-. eexists; split; [reflexivity|]. constructor; [reflexivity | exact Hm].
  - intros H. injection H as <-. eexists; split; [reflexivity | exact Hm].
Qed.

Lemma existsb_str_dicts (ps : list pyval) (k : string) :
  Forall (fun p => is_dict p = true) ps ->
  existsb (fun x => match x with PStr s => String.eqb s k | _ => false end) ps = false.
Proof.
  induction 1 as [|p ps Hp _ IH]; simpl; [reflexivity|].
  destruct p; try discriminate Hp. exact IH.
Qed.

(** The record [generate_chart] returns: the failure record, or a
    successful record whose placements are a list of dicts and whose
    birth data has no ["location"] key, on which [set_chart_context]
    raises. *)
Lemma generate_chart_cases (engine : engine_output) (name : string)
    (year month day hour minute : Z) (latitude longitude : pyval)
    (timezone : string) (city : pyval) :
  let res := generate_chart engine name year month day hour minute latitude longitude timezone city in
  (exists msg, res = PDict [("success", PBool false); ("message", PStr msg)]) \/
  (py_truthy res = true /\ py_get res "success" PNone = Ok (PBool true) /\
   (exists ps, py_get res "placements" (PDict nil) = Ok (PList ps) /\
               Forall (fun p => is_dict p = true) ps) /\
   forall c, set_chart_context c res = Raise (KeyError "location")).
Proof.
  cbv zeta. unfold generate_chart.
  destruct engine as [[subject aspects]|e]; cbn [rbind]; [|left; eexists; reflexivity].
  destruct (extract_placements subject) as [pl|e] eqn:Ep; cbn [rbind]; [|left; eexists; reflexivity].
  destruct (extract_aspects aspects) as [asps|e]; cbn [rbind]; [|left; eexists; reflexivity].
  destruct (extract_houses subject) as [hs|e]; cbn [rbind]; [|left; eexists; reflexivity].
  destruct (generate_interpretation subject) as [it|e]; cbn [rbind]; [|left; eexists; reflexivity].
  right. destruct (extract_placements_list subject pl Ep) as (ps & -> & Hps).
  split; [reflexivity|]. split; [reflexivity|]. split; [eauto|].
  intros c. reflexivity.
Qed.

(** C1 (the placements the generator produces are not the mapping the
    consumers read): every chart record [generate_chart] returns either
    reports failure, or is a successful record whose placements are a
    list (of dicts, each with a ["planet"] key), so that [.items()] on
    them raises, [set_chart_context] raises (already on the missing
    ["location"] key of the birth data), and [get_suggested_prompts]
    finds none of 'Sun', 'Moon', 'Venus' and returns only the three
    closing prompts. *)
Theorem generated_placements_not_mapping (engine : engine_output) (name : string)
    (year month day hour minute : Z) (latitude longitude : pyval)
    (timezone : string) (city : pyval) (c : companion) :
  let res := generate_chart engine name year month day hour minute latitude longitude timezone city in
  py_get res "success" PNone = Ok (PBool false) \/
  ((exists ps, py_get res "placements" (PDict nil) = Ok (PList ps) /\
               py_items (PList ps) = Raise (no_attr (PList ps) "items")) /\
   set_chart_context c res = Raise (KeyError "location") /\
   get_suggested_prompts res = Ok closing_prompts).
Proof.
  cbv zeta.
  destruct (generate_chart_cases engine name year month day hour minute latitude longitude timezone city)
    as [[msg ->] | (Ht & Hs & (ps & Hp & Hps) & Hc)]; [left; reflexivity | right].
  split; [exists ps; split; [exact Hp | reflexivity]|]. split; [apply Hc|].
  unfold get_suggested_prompts. rewrite Ht. cbn [negb]. rewrite Hs. cbn [rbind py_truthy negb].
  rewrite Hp. cbn [rbind py_contains]. rewrite !existsb_str_dicts by exact Hps.
  reflexivity.
Qed.

(** C4 (the two globals are updated apart): for non-empty name and city,
    every call of [generate_natal_chart] either leaves the state as it
    was (the generation failed), or stores the new record in
    [current_chart_data] and then raises from [set_chart_context], the
    companion and its [chart_context] left as they were. *)
Theorem chart_globals_updated_apart (engine : engine_output) (path_exists : pyval -> bool)
    (st : app_state) (name : string) (year month day hour minute : Z)
    (city : string) (latitude longitude : pyval) (timezone : string) :
  name <> "" -> city <> "" ->
  let res := generate_chart engine name year month day hour minute latitude longitude
               timezone (PStr city) in
  let out := generate_natal_chart engine path_exists st name year month day hour minute
               city latitude longitude timezone in
  fst out = st \/
  (py_get res "success" PNone = Ok (PBool true) /\
   fst out = {| current_chart_data := res; ai_companion := st.(ai_companion) |} /\
   snd out = Raise (KeyError "location")).
Proof.
  intros Hn Hc. cbv zeta. unfold generate_natal_chart.
  rewrite (proj2 (String.eqb_neq name "") Hn), (proj2 (String.eqb_neq city "") Hc). cbn [orb].
  destruct (generate_chart_cases engine name year month day hour minute latitude longitude timezone (PStr city))
    as [[msg Hr] | (Ht & Hs & _ & Hsc)].
  - left. rewrite Hr. reflexivity.
  - right. rewrite Hs. cbn [py_truthy negb]. rewrite Hsc. split; [reflexivity | split; reflexivity].
Qed.

Lemma chart_globals_updated_apart_witness :
  fst (generate_natal_chart sample_engine (fun _ => false) (initial_state "B") "Ada"
         1990 8 15 14 30 "London" (PFloat "51.5") (PFloat "-0.12") "Europe/London")
  = {| current_chart_data := sample_chart; ai_companion := ai_companion (initial_state "B") |}.
Proof.
  destruct (chart_globals_updated_apart sample_engine (fun _ => false) (initial_state "B") "Ada"
              1990 8 15 14 30 "London" (PFloat "51.5") (PFloat "-0.12") "Europe/London"
              ltac:(discriminate) ltac:(discriminate)) as [H | (_ & H & _)].
  - vm_compute in H. discriminate H.
  - exact H.
Defined.

(** On the sample chart of a real engine run: the consumers get no
    chart-specific prompt and no context. *)
Lemma sample_chart_consumers :
  get_suggested_prompts sample_chart = Ok closing_prompts /\
  set_chart_context sample_companion sample_chart = Raise (KeyError "location").
Proof. split; vm_compute; reflexivity. Qed.

(* ===================================================================== *)
(** ** Further properties of the code *)
(* ===================================================================== *)

Lemma rbind_ok_inv {A B} (m : result A) (k : A -> result B) (y : B) :
  rbind m k = Ok y -> exists x, m = Ok x /\ k x = Ok y.
Proof. destruct m as [x|e]; simpl; [eauto | discriminate]. Qed.

Lemma str_app_assoc (x y z : string) : (x ++ y) ++ z = x ++ (y ++ z).
Proof.
  induction x as [|a x IH]; [reflexivity|].
  change (String a ((x ++ y) ++ z) = String a (x ++ (y ++ z))). rewrite IH. reflexivity.
Qed.

Lemma str_app_nil_r (x : string) : x ++ "" = x.
Proof.
  induction x as [|a x IH]; [reflexivity|].
  change (String a (x ++ "") = String a x). rewrite IH. reflexivity.
Qed.

Lemma str_length_app (x y : string) : String.length (x ++ y) = String.length x + String.length y.
Proof.
  induction x as [|a x IH]; [reflexivity|].
  change (S (String.length (x ++ y)) = S (String.length x + String.length y)). rewrite IH. reflexivity.
Qed.

(** [companion_init] (X1): construction raises the missing-key
    [ValueError] exactly when neither the argument nor
    [ANTHROPIC_API_KEY] gives a non-empty key ([int()] never raises
    that error); a constructed companion has no chart context and the prompt of
    the file (or the fallback); with [CLAUDE_MODEL] and [MAX_TOKENS]
    unset it is the companion of [initial_state]. *)
Theorem companion_init_result (py_int : string -> result Z) (getenv : string -> option string)
    (prompt_file : option string) (api_key : option string) :
  ((forall t e, py_int t = Raise e -> e <> OtherError api_key_missing) ->
     (companion_init py_int getenv prompt_file api_key = Raise (OtherError api_key_missing) <->
      opt_truthy api_key = false /\ opt_truthy (getenv "ANTHROPIC_API_KEY") = false)) /\
  (forall c, companion_init py_int getenv prompt_file api_key = Ok c ->
     chart_context c = None /\ system_prompt c = load_system_prompt prompt_file) /\
  (opt_truthy api_key = true \/ opt_truthy (getenv "ANTHROPIC_API_KEY") = true ->
     getenv "CLAUDE_MODEL" = None -> getenv "MAX_TOKENS" = None -> py_int "4096" = Ok 4096%Z ->
     companion_init py_int getenv prompt_file api_key =
       Ok (ai_companion (initial_state (load_system_prompt prompt_file)))).
Proof.
  unfold companion_init. split; [|split].
  - intros Hint. split.
    + destruct (opt_truthy api_key) eqn:Ha.
      * rewrite Ha. cbn [negb]. intros H. exfalso.
        destruct (py_int _) as [mt|e] eqn:Hi; cbn [rbind] in H; [discriminate|].
        injection H as ->. exact (Hint _ _ Hi eq_refl).
      * destruct (opt_truthy (getenv "ANTHROPIC_API_KEY")) eqn:He; [|intros _; split; reflexivity].
        cbn [negb]. intros H. exfalso.
        destruct (py_int _) as [mt|e] eqn:Hi; cbn [rbind] in H; [discriminate|].
        injection H as ->. exact (Hint _ _ Hi eq_refl).
    + intros [Ha He]. rewrite Ha, He. reflexivity.
  - intros c H. destruct (negb _); [discriminate|].
    apply rbind_ok_inv in H as (mt & _ & H). injection H as <-. split; reflexivity.
  - intros Hk Hm Hmt Hi. rewrite Hm, Hmt. cbn [default id]. rewrite Hi.
    destruct (opt_truthy api_key) eqn:Ha.
    + rewrite Ha. reflexivity.
    + destruct Hk as [Hk|Hk]; [discriminate|]. rewrite Hk. reflexivity.
Qed.

Lemma companion_init_result_witness :
  (companion_init (fun t => if String.eqb t "4096" then Ok 4096%Z
                            else Raise (OtherError "invalid literal for int() with base 10"))
     (fun v => None) None None = Raise (OtherError api_key_missing) <->
   opt_truthy None = false /\ opt_truthy None = false) /\
  companion_init (fun t => if String.eqb t "4096" then Ok 4096%Z
                           else Raise (OtherError "invalid literal for int() with base 10"))
    (fun v => if String.eqb v "ANTHROPIC_API_KEY" then Some "sk-test" else None) None None
  = Ok (ai_companion (initial_state fallback_system_prompt)).
Proof.
  split.
  - apply (proj1 (companion_init_result
      (fun t => if String.eqb t "4096" then Ok 4096%Z
                else Raise (OtherError "invalid literal for int() with base 10"))
      (fun v => None) None None)).
    intros t e H. destruct (String.eqb t "4096"); [discriminate|].
    injection H as <-. intros Heq. injection Heq as Heq. vm_compute in Heq. discriminate Heq.
  - exact (proj2 (proj2 (companion_init_result
      (fun t => if String.eqb t "4096" then Ok 4096%Z
                else Raise (OtherError "invalid literal for int() with base 10"))
      (fun v => if String.eqb v "ANTHROPIC_API_KEY" then Some "sk-test" else None) None None))
      (or_intror eq_refl) eq_refl eq_refl eq_refl).
Defined.

(** [set_chart_context] (X2): the outcome is decided by the chart record
    alone: the new companion is the old one with only [chart_context]
    replaced, by a value that does not depend on the previous context
    (recomputed, never merged), and an exception does not depend on the
    companion either. *)
Theorem set_chart_context_only_context (cd : pyval) :
  exists o : result (option string),
    forall c, set_chart_context c cd =
      match o with Ok ctx => Ok (with_context c ctx) | Raise e => Raise e end.
Proof.
  unfold set_chart_context.
  destruct (negb (py_truthy cd)); [exists (Ok None); reflexivity|].
  destruct (py_get cd "success" PNone) as [s|e]; cbn [rbind]; [|exists (Raise e); reflexivity].
  destruct (negb (py_truthy s)); [exists (Ok None); reflexivity|].
  destruct (context_parts cd) as [parts|e]; cbn [rbind];
    [exists (Ok (Some (str_join nl parts))) | exists (Raise e)]; reflexivity.
Qed.

Lemma prepare_messages_sent (h : heap) (hist : option loc) (message : string) :
  heap_contents (fst (prepare_messages h hist message)) (snd (prepare_messages h hist message))
  = app (hist_contents h hist) [user_turn message].
Proof.
  assert (Halloc : forall h0 : heap,
    heap_contents (heap_append (fst (heap_alloc h0 nil)) (snd (heap_alloc h0 nil)) (user_turn message))
                  (snd (heap_alloc h0 nil)) = [user_turn message]).
  { intros h0. unfold heap_append, heap_alloc; cbn [fst snd]. unfold heap_contents; cbn [cells next_loc].
    rewrite !lookup_insert_eq. reflexivity. }
  unfold prepare_messages. destruct hist as [l|]; cbn [hist_contents].
  - destruct (py_truthy (PList (heap_contents h l))) eqn:Ht.
    + cbn [fst snd]. unfold heap_contents at 1, heap_append; cbn [cells].
      rewrite lookup_insert_eq. reflexivity.
    + assert (Hn : heap_contents h l = nil).
      { cbn [py_truthy] in Ht. destruct (heap_contents h l); [reflexivity | discriminate]. }
      rewrite Hn. destruct (heap_alloc h nil) as [h1 m] eqn:Ea. cbn [fst snd].
      specialize (Halloc h). rewrite Ea in Halloc. exact Halloc.
  - destruct (heap_alloc h nil) as [h1 m] eqn:Ea. cbn [fst snd].
    specialize (Halloc h). rewrite Ea in Halloc. exact Halloc.
Qed.

(** [chat] and [chat_stream] (X3): both send the same request, built
    from the companion's model, token limit and system instruction; its
    messages are the caller's history list (when given) followed by the
    new user turn, also when that list is empty or absent. *)
Theorem chat_request_sent (c : companion) (h : heap) (message : string) (hist : option loc) :
  exists r,
    req_model r = model c /\ req_max_tokens r = max_tokens c /\
    req_system r = system_content c /\
    req_messages r = app (hist_contents h hist) [user_turn message] /\
    (forall create, snd (chat create c h message hist) = try_return (rbind (create r) first_text)) /\
    (forall open, snd (run_stream open (chat_stream c message hist) h) = drain (open r)).
Proof.
  pose proof (prepare_messages_sent h hist message) as Hs.
  unfold chat, run_stream, chat_stream; cbn [gen_history gen_message gen_self].
  destruct (prepare_messages h hist message) as [h1 m]. cbn [fst snd] in Hs.
  exists (build_request c h1 m). repeat split; try reflexivity. exact Hs.
Qed.

(** [get_suggested_prompts] (X4): whatever the chart record, a returned
    list is the generic list or at most three chart questions followed
    by all three closing questions: the cut to 6 never drops one. *)
Theorem suggested_prompts_shape (cd : pyval) (ps : list string) :
  get_suggested_prompts cd = Ok ps ->
  ps = generic_prompts \/ exists pre, ps = app pre closing_prompts /\ List.length pre <= 3.
Proof.
  intros H. unfold get_suggested_prompts in H.
  destruct (negb (py_truthy cd)); [left; injection H as <-; reflexivity|].
  apply rbind_ok_inv in H as (s & _ & H).
  destruct (negb (py_truthy s)); [left; injection H as <-; reflexivity|].
  apply rbind_ok_inv in H as (pl & _ & H).
  apply rbind_ok_inv in H as (hs & _ & H). apply rbind_ok_inv in H as (psun & Hsun & H).
  apply rbind_ok_inv in H as (hm & _ & H). apply rbind_ok_inv in H as (pmoon & Hmoon & H).
  apply rbind_ok_inv in H as (hv & _ & H). apply rbind_ok_inv in H as (pvenus & Hvenus & H).
  injection H as <-. right.
  assert (L1 : List.length psun <= 1).
  { destruct hs; [|injection Hsun as <-; simpl; lia].
    repeat (apply rbind_ok_inv in Hsun as (? & _ & Hsun)). injection Hsun as <-. simpl; lia. }
  assert (L2 : List.length pmoon <= 1).
  { destruct hm; [|injection Hmoon as <-; simpl; lia].
    repeat (apply rbind_ok_inv in Hmoon as (? & _ & Hmoon)). injection Hmoon as <-. simpl; lia. }
  assert (L3 : List.length pvenus <= 1).
  { destruct hv; [|injection Hvenus as <-; simpl; lia].
    repeat (apply rbind_ok_inv in Hvenus as (? & _ & Hvenus)). injection Hvenus as <-. simpl; lia. }
  exists (app psun (app pmoon pvenus)).
  rewrite firstn_all2.
  - rewrite <- !app_assoc. split; [reflexivity|]. rewrite !length_app. lia.
  - rewrite !length_app. simpl. lia.
Qed.

Lemma suggested_prompts_shape_witness :
  get_suggested_prompts (PDict [("success", PBool true);
     ("placements", PDict [("Sun", PDict [("sign", PStr "Leo")])])])
  = Ok (app ["What does my Sun in Leo mean for my identity?"] closing_prompts).
Proof.
  destruct (suggested_prompts_shape (PDict [("success", PBool true);
     ("placements", PDict [("Sun", PDict [("sign", PStr "Leo")])])])
     (app ["What does my Sun in Leo mean for my identity?"] closing_prompts)
     ltac:(vm_compute; reflexivity)) as [H | (pre & H & _)].
  - vm_compute in H. discriminate H.
  - vm_compute. reflexivity.
Defined.

Lemma accumulate_nth (acc : string) (chunks : list string) (i : nat) :
  i < List.length chunks ->
  nth i (accumulate acc chunks) "" = acc ++ fold_right String.append "" (firstn (S i) chunks).
Proof.
  revert acc i. induction chunks as [|c cs IH]; intros acc i Hi; simpl in Hi; [lia|].
  destruct i as [|j]; simpl.
  - rewrite str_app_nil_r. reflexivity.
  - rewrite IH by lia. rewrite str_app_assoc. reflexivity.
Qed.

Lemma last_as_nth {A} (l : list A) (d : A) : List.last l d = nth (List.length l - 1) l d.
Proof.
  induction l as [|x l IH]; [reflexivity|].
  destruct l as [|y l]; [reflexivity|].
  change (List.last (y :: l) d = nth (List.length l) (y :: l) d).
  rewrite IH. simpl. rewrite Nat.sub_0_r. reflexivity.
Qed.

(** The loop of [chat_with_companion] (X5): it yields once per chunk,
    and the [i]-th value yielded is the concatenation of the first
    [i + 1] chunks; the last one is the whole reply. *)
Theorem accumulate_running_text (chunks : list string) :
  List.length (accumulate "" chunks) = List.length chunks /\
  (forall i, i < List.length chunks ->
     nth i (accumulate "" chunks) "" = fold_right String.append "" (firstn (S i) chunks)) /\
  (chunks <> nil ->
     List.last (accumulate "" chunks) "" = fold_right String.append "" chunks).
Proof.
  assert (Hlen : forall acc cs, List.length (accumulate acc cs) = List.length cs).
  { intros acc cs. revert acc. induction cs as [|c cs IH]; intros acc; simpl; [reflexivity|].
    rewrite IH. reflexivity. }
  split; [apply Hlen|]. split.
  - intros i Hi. apply accumulate_nth. exact Hi.
  - intros Hne. destruct chunks as [|c cs]; [contradiction|].
    rewrite last_as_nth, Hlen. simpl List.length.
    replace (S (List.length cs) - 1) with (List.length cs) by lia.
    rewrite accumulate_nth by (simpl; lia).
    rewrite firstn_all2 by (simpl; lia). reflexivity.
Qed.

Lemma accumulate_running_text_witness :
  List.last (accumulate "" ["Your "; "Sun "; "is in Leo."]) "" = "Your Sun is in Leo.".
Proof.
  refine (eq_trans (proj2 (proj2 (accumulate_running_text ["Your "; "Sun "; "is in Leo."])) _) _);
    [discriminate | reflexivity].
Defined.

(** [chat_with_companion] (X6): a blank message yields nothing and
    touches nothing; for a message with text, an exception of the
    history conversion escapes before any request, and otherwise the
    provider receives the converted history followed by the new user
    turn under the companion's system instruction, and the handler
    yields the running concatenations of the streamed chunks. A message
    is blank when all its code points are whitespace for [str.strip]. *)
Theorem chat_with_companion_run (open : stream_api) (st : app_state) (h : heap)
    (message : string) (history : pyval) :
  (is_blank message = true -> chat_with_companion open st h message history = (h, Ok nil)) /\
  (is_blank message = false ->
     (forall e, convert_history history = Raise e ->
        chat_with_companion open st h message history = (h, Raise e)) /\
     (forall turns, convert_history history = Ok turns ->
        exists r, req_messages r = app turns [user_turn message] /\
                  req_system r = system_content st.(ai_companion) /\
                  snd (chat_with_companion open st h message history) =
                    Ok (accumulate "" (drain (open r))))).
Proof.
  split.
  - intros Hb. unfold chat_with_companion. rewrite Hb. reflexivity.
  - intros Hb. split.
    + intros e He. unfold chat_with_companion. rewrite Hb, He. reflexivity.
    + intros turns Hc. unfold chat_with_companion. rewrite Hb, Hc.
      destruct (heap_alloc h turns) as [h1 l] eqn:Ea.
      assert (Hl : hist_contents h1 (Some l) = turns).
      { unfold heap_alloc in Ea. injection Ea as <- <-.
        unfold hist_contents, heap_contents; cbn [cells]. rewrite lookup_insert_eq. reflexivity. }
      pose proof (prepare_messages_sent h1 (Some l) message) as Hs. rewrite Hl in Hs.
      unfold run_stream, chat_stream; cbn [gen_history gen_message gen_self].
      destruct (prepare_messages h1 (Some l) message) as [h2 m]. cbn [fst snd] in Hs.
      exists (build_request (ai_companion st) h2 m). split; [exact Hs|]. split; reflexivity.
Qed.

Lemma chat_with_companion_run_witness :
  chat_with_companion (fun _ => [Delta "Hi"]) (initial_state "B") empty_heap
    "　 " (PList nil) = (empty_heap, Ok nil) /\
  snd (chat_with_companion (fun _ => [Delta "Hi"; Delta " there"]) (initial_state "B") empty_heap
         "hello" (PList [PList [PStr "q"; PStr "a"]])) = Ok ["Hi"; "Hi there"].
Proof.
  split.
  - exact (proj1 (chat_with_companion_run (fun _ => [Delta "Hi"]) (initial_state "B") empty_heap
             "　 " (PList nil)) eq_refl).
  - destruct (proj2 (proj2 (chat_with_companion_run (fun _ => [Delta "Hi"; Delta " there"])
                (initial_state "B") empty_heap "hello" (PList [PList [PStr "q"; PStr "a"]])) eq_refl)
                [turn "user" (PStr "q"); turn "assistant" (PStr "a")] eq_refl) as (r & _ & _ & Hr).
    rewrite Hr. reflexivity.
Defined.

Lemma rmap_raise {A B} (f : A -> result B) (xs : list A) (x : A) :
  In x xs -> (exists e, f x = Raise e) -> exists e, rmap f xs = Raise e.
Proof.
  intros Hin [e He]. induction xs as [|y xs IH]; [destruct Hin|].
  destruct Hin as [<- | Hin]; simpl.
  - rewrite He. eexists; reflexivity.
  - destruct (f y) as [z|e']; simpl; [|eexists; reflexivity].
    destruct (IH Hin) as [e'' ->]. eexists; reflexivity.
Qed.

(** The history conversion of [chat_with_companion] (X7): for a history
    of [user, bot] pairs, the turns keep exactly the non-empty messages,
    in order, each with the role user or assistant; an item that is a
    list of other than two entries makes the conversion raise. *)
Theorem convert_history_turns (pairs : list (pyval * pyval)) (items : list pyval) :
  (exists turns,
     convert_history (PList (map (fun p => PList [fst p; snd p]) pairs)) = Ok turns /\
     map (fun t => dict_field t "content") turns =
       map Some (List.filter py_truthy (flat_map (fun p => [fst p; snd p]) pairs)) /\
     Forall (fun t => dict_field t "role" = Some (PStr "user") \/
                      dict_field t "role" = Some (PStr "assistant")) turns) /\
  ((exists item xs, In item items /\ item = PList xs /\ List.length xs <> 2) ->
     exists e, convert_history (PList items) = Raise e).
Proof.
  split.
  - unfold convert_history, rflat_map. cbn [py_iter rbind].
    assert (H : exists yss,
      rmap history_turns (map (fun p => PList [fst p; snd p]) pairs) = Ok yss /\
      map (fun t => dict_field t "content") (concat yss) =
        map Some (List.filter py_truthy (flat_map (fun p => [fst p; snd p]) pairs)) /\
      Forall (fun t => dict_field t "role" = Some (PStr "user") \/
                       dict_field t "role" = Some (PStr "assistant")) (concat yss)).
    { induction pairs as [|[u b] pairs IH]; [exists nil; repeat split; constructor|].
      destruct IH as (yss & E & Hc & Hr). cbn [map rmap]. rewrite E.
      eexists. split; [reflexivity|]. cbn [concat flat_map fst snd].
      rewrite map_app, Hc, List.Forall_app. split.
      - cbn [app List.filter]. destruct (py_truthy u), (py_truthy b); reflexivity.
      - split; [|exact Hr].
        destruct (py_truthy u), (py_truthy b); cbn [app]; repeat (constructor; [cbn; auto|]); constructor. }
    destruct H as (yss & E & Hc & Hr). rewrite E. cbn [rbind]. eauto.
  - intros (item & xs & Hin & -> & Hlen). unfold convert_history, rflat_map. cbn [py_iter rbind].
    destruct (rmap_raise history_turns items (PList xs) Hin) as [e He].
    + unfold history_turns, unpack2. cbn [py_iter].
      destruct xs as [|a [|b [|c xs]]]; [eexists; reflexivity | eexists; reflexivity
        | simpl in Hlen; lia | eexists; reflexivity].
    + rewrite He. eexists; reflexivity.
Qed.

Lemma convert_history_turns_witness :
  exists e, convert_history (PList [PList [PStr "q"; PStr "a"; PStr "extra"]]) = Raise e.
Proof.
  apply (proj2 (convert_history_turns nil [PList [PStr "q"; PStr "a"; PStr "extra"]])).
  exists (PList [PStr "q"; PStr "a"; PStr "extra"]), [PStr "q"; PStr "a"; PStr "extra"].
  split; [left; reflexivity | split; [reflexivity | simpl; lia]].
Defined.

(** The records [generate_chart] returns, spelled out. *)
Lemma generate_chart_fields (engine : engine_output) (name : string)
    (year month day hour minute : Z) (latitude longitude : pyval)
    (timezone : string) (city : pyval) :
  (exists msg, generate_chart engine name year month day hour minute latitude longitude timezone city
               = PDict [("success", PBool false); ("message", PStr msg)] /\
               (forall e, engine = Raise e -> msg = exc_str e)) \/
  (exists ps asps hs it,
     generate_chart engine name year month day hour minute latitude longitude timezone city =
     PDict [("success", PBool true); ("name", PStr name);
            ("birth_data", PDict
               [("date", PStr (str_of_Z year ++ "-" ++ fmt_0d 2 month ++ "-" ++ fmt_0d 2 day));
                ("time", PStr (fmt_0d 2 hour ++ ":" ++ fmt_0d 2 minute));
                ("city", if py_truthy city then city else PStr "Unknown");
                ("latitude", latitude); ("longitude", longitude); ("timezone", PStr timezone)]);
            ("placements", PList ps); ("aspects", asps); ("houses", hs);
            ("chart_svg_path", PStr (path_div "output" (space_to_underscore name ++ "_chart.svg")));
            ("interpretation", it)] /\
     Forall (fun p => is_dict p = true) ps).
Proof.
  unfold generate_chart.
  destruct engine as [[subject aspects]|e]; cbn [rbind];
    [|left; eexists; split; [reflexivity | intros e' H; injection H as <-; reflexivity]].
  destruct (extract_placements subject) as [pl|e] eqn:Ep; cbn [rbind];
    [|left; eexists; split; [reflexivity | discriminate]].
  destruct (extract_aspects aspects) as [asps|e]; cbn [rbind];
    [|left; eexists; split; [reflexivity | discriminate]].
  destruct (extract_houses subject) as [hs|e]; cbn [rbind];
    [|left; eexists; split; [reflexivity | discriminate]].
  destruct (generate_interpretation subject) as [it|e]; cbn [rbind];
    [|left; eexists; split; [reflexivity | discriminate]].
  right. destruct (extract_placements_list subject pl Ep) as (ps & -> & Hps).
  exists ps, asps, hs, it. split; [reflexivity | exact Hps].
Qed.

Lemma natal_chart_after_success (engine : engine_output) (path_exists : pyval -> bool)
    (st : app_state) (name : string) (year month day hour minute : Z)
    (city : string) (latitude longitude : pyval) (timezone : string) (res : pyval) (e : exc) :
  name <> "" -> city <> "" ->
  generate_chart engine name year month day hour minute latitude longitude timezone (PStr city) = res ->
  py_get res "success" PNone = Ok (PBool true) ->
  set_chart_context st.(ai_companion) res = Raise e ->
  generate_natal_chart engine path_exists st name year month day hour minute city latitude longitude timezone
  = ({| current_chart_data := res; ai_companion := st.(ai_companion) |}, Raise e).
Proof.
  intros Hn Hc Hr Hs He. unfold generate_natal_chart.
  rewrite (proj2 (String.eqb_neq name "") Hn), (proj2 (String.eqb_neq city "") Hc). cbn [orb].
  rewrite Hr, Hs. cbn [py_truthy negb]. cbv zeta. cbn [ai_companion]. rewrite He. reflexivity.
Qed.

Lemma natal_chart_after_failure (engine : engine_output) (path_exists : pyval -> bool)
    (st : app_state) (name : string) (year month day hour minute : Z)
    (city : string) (latitude longitude : pyval) (timezone : string) (msg : string) :
  name <> "" -> city <> "" ->
  generate_chart engine name year month day hour minute latitude longitude timezone (PStr city)
    = PDict [("success", PBool false); ("message", PStr msg)] ->
  generate_natal_chart engine path_exists st name year month day hour minute city latitude longitude timezone
  = (st, Ok (PNone, "Error: " ++ msg, "❌ Chart generation failed")).
Proof.
  intros Hn Hc Hr. unfold generate_natal_chart.
  rewrite (proj2 (String.eqb_neq name "") Hn), (proj2 (String.eqb_neq city "") Hc). cbn [orb].
  rewrite Hr. reflexivity.
Qed.

Lemma suggested_prompts_list_placements (kvs : list (string * pyval)) (ps : list pyval) :
  assoc "success" kvs = Some (PBool true) -> assoc "placements" kvs = Some (PList ps) ->
  Forall (fun p => is_dict p = true) ps ->
  get_suggested_prompts (PDict kvs) = Ok closing_prompts.
Proof.
  intros Hs Hp Hps. unfold get_suggested_prompts.
  assert (Ht : py_truthy (PDict kvs) = true) by (destruct kvs; [discriminate | reflexivity]).
  rewrite Ht. cbn [negb py_get]. rewrite Hs. cbn [rbind py_truthy negb].
  rewrite Hp. cbn [rbind py_contains]. rewrite !existsb_str_dicts by exact Hps.
  reflexivity.
Qed.

(** [get_chart_status] and [load_suggested_prompts] after
    [generate_natal_chart] (X8): for non-empty name and city, either the
    state is unchanged, or the chart status reports the new chart as
    loaded and the suggested prompts are the three closing questions
    only, while the companion's chart context is unchanged. *)
Theorem status_after_generation (engine : engine_output) (path_exists : pyval -> bool)
    (st : app_state) (name : string) (year month day hour minute : Z)
    (city : string) (latitude longitude : pyval) (timezone : string) :
  name <> "" -> city <> "" ->
  let st' := fst (generate_natal_chart engine path_exists st name year month day hour minute
                    city latitude longitude timezone) in
  st' = st \/
  (get_chart_status st' = Ok ("✓ Chart loaded: " ++ name) /\
   load_suggested_prompts st' = Ok (map (fun p => [p]) closing_prompts) /\
   chart_context st'.(ai_companion) = chart_context st.(ai_companion)).
Proof.
  intros Hn Hc. cbv zeta.
  destruct (generate_chart_fields engine name year month day hour minute latitude longitude timezone
              (PStr city)) as [(msg & Hr & _) | (ps & asps & hs & it & Hr & Hps)].
  - left. rewrite (natal_chart_after_failure _ _ _ _ _ _ _ _ _ _ _ _ _ msg Hn Hc Hr). reflexivity.
  - right. erewrite (natal_chart_after_success _ _ _ _ _ _ _ _ _ _ _ _ _ _ (KeyError "location") Hn Hc Hr);
      [| reflexivity | reflexivity].
    cbn [fst ai_companion]. split; [reflexivity|]. split; [|reflexivity].
    unfold load_suggested_prompts. cbn [current_chart_data].
    rewrite (suggested_prompts_list_placements _ ps); [reflexivity | reflexivity | reflexivity | exact Hps].
Qed.

Lemma status_after_generation_witness :
  get_chart_status (fst (generate_natal_chart sample_engine (fun _ => false) (initial_state "B") "Ada"
     1990 8 15 14 30 "London" (PFloat "51.5") (PFloat "-0.12") "Europe/London"))
  = Ok ("✓ Chart loaded: " ++ "Ada").
Proof.
  destruct (status_after_generation sample_engine (fun _ => false) (initial_state "B") "Ada"
              1990 8 15 14 30 "London" (PFloat "51.5") (PFloat "-0.12") "Europe/London"
              ltac:(discriminate) ltac:(discriminate)) as [H | (H & _ & _)].
  - vm_compute in H. discriminate H.
  - exact H.
Defined.

(** [generate_natal_chart] (X9): whenever it returns normally it has
    changed nothing and returns no SVG path: the returned triple is the
    missing-fields message or the failure message built from the
    generator's error; and for a non-empty name and city, a successful
    [generate_chart] makes it raise, so it never returns normally. *)
Theorem generate_natal_chart_returns (engine : engine_output) (path_exists : pyval -> bool)
    (st : app_state) (name : string) (year month day hour minute : Z)
    (city : string) (latitude longitude : pyval) (timezone : string) :
  (forall (p : pyval) (t s : string),
     snd (generate_natal_chart engine path_exists st name year month day hour minute
            city latitude longitude timezone) = Ok (p, t, s) ->
     p = PNone /\
     fst (generate_natal_chart engine path_exists st name year month day hour minute
            city latitude longitude timezone) = st /\
     ((t = "Please provide both name and city." /\ s = "⚠ Missing required fields") \/
      (exists msg, t = "Error: " ++ msg /\ s = "❌ Chart generation failed"))) /\
  (name <> "" -> city <> "" ->
   py_get (generate_chart engine name year month day hour minute latitude longitude timezone (PStr city))
     "success" PNone = Ok (PBool true) ->
   exists e, snd (generate_natal_chart engine path_exists st name year month day hour minute
                    city latitude longitude timezone) = Raise e).
Proof.
  split.
  - intros p t s.
    destruct (String.eqb name "" || String.eqb city "") eqn:Hm.
    + unfold generate_natal_chart. rewrite Hm. cbn [snd fst].
      intros H. injection H as <- <- <-. split; [reflexivity|]. split; [reflexivity|].
      left; split; reflexivity.
    + apply orb_false_iff in Hm as [Hn Hc].
      apply String.eqb_neq in Hn, Hc.
      destruct (generate_chart_fields engine name year month day hour minute latitude longitude timezone
                  (PStr city)) as [(msg & Hr & _) | (ps & asps & hs & it & Hr & Hps)].
      * rewrite (natal_chart_after_failure _ _ _ _ _ _ _ _ _ _ _ _ _ msg Hn Hc Hr). cbn [snd fst].
        intros H. injection H as <- <- <-. split; [reflexivity|]. split; [reflexivity|].
        right. eexists; split; reflexivity.
      * erewrite (natal_chart_after_success _ _ _ _ _ _ _ _ _ _ _ _ _ _ (KeyError "location") Hn Hc Hr);
          [| reflexivity | reflexivity].
        cbn [snd]. discriminate.
  - intros Hn Hc Hs.
    destruct (generate_chart_fields engine name year month day hour minute latitude longitude timezone
                (PStr city)) as [(msg & Hr & _) | (ps & asps & hs & it & Hr & Hps)].
    + rewrite Hr in Hs. discriminate Hs.
    + erewrite (natal_chart_after_success _ _ _ _ _ _ _ _ _ _ _ _ _ _ (KeyError "location") Hn Hc Hr);
        [| reflexivity | reflexivity].
      eexists; reflexivity.
Qed.

Lemma generate_natal_chart_returns_witness :
  fst (generate_natal_chart (Raise (OtherError "Invalid timezone")) (fun _ => true) (initial_state "B")
         "Ada" 1990 8 15 14 30 "London" (PFloat "51.5") (PFloat "-0.12") "Mars/Olympus")
  = initial_state "B" /\
  exists e, snd (generate_natal_chart sample_engine (fun _ => true) (initial_state "B")
         "Ada" 1990 8 15 14 30 "London" (PFloat "51.5") (PFloat "-0.12") "Europe/London") = Raise e.
Proof.
  split.
  - exact (proj1 (proj2 (proj1 (generate_natal_chart_returns (Raise (OtherError "Invalid timezone"))
      (fun _ => true) (initial_state "B") "Ada" 1990 8 15 14 30 "London" (PFloat "51.5") (PFloat "-0.12")
      "Mars/Olympus") PNone "Error: Invalid timezone" "❌ Chart generation failed" eq_refl))).
  - apply (proj2 (generate_natal_chart_returns sample_engine (fun _ => true) (initial_state "B")
      "Ada" 1990 8 15 14 30 "London" (PFloat "51.5") (PFloat "-0.12") "Europe/London"));
      [discriminate | discriminate | vm_compute; reflexivity].
Defined.

(** [generate_chart] and [generate_natal_chart] (X10): when the
    astrology engine raises, the UI gets [None], "Error: " followed by
    [str(e)], and the failure status, and the state is unchanged. *)
Theorem engine_error_reaches_ui (path_exists : pyval -> bool) (st : app_state) (e : exc)
    (name : string) (year month day hour minute : Z)
    (city : string) (latitude longitude : pyval) (timezone : string) :
  name <> "" -> city <> "" ->
  generate_natal_chart (Raise e) path_exists st name year month day hour minute
    city latitude longitude timezone
  = (st, Ok (PNone, "Error: " ++ exc_str e, "❌ Chart generation failed")).
Proof.
  intros Hn Hc.
  destruct (generate_chart_fields (Raise e) name year month day hour minute latitude longitude timezone
              (PStr city)) as [(msg & Hr & Hm) | (ps & asps & hs & it & Hr & _)].
  - rewrite (natal_chart_after_failure _ _ _ _ _ _ _ _ _ _ _ _ _ msg Hn Hc Hr).
    rewrite (Hm e eq_refl). reflexivity.
  - discriminate Hr.
Qed.

Lemma engine_error_reaches_ui_witness :
  generate_natal_chart (Raise (OtherError "Invalid timezone")) (fun _ => true) (initial_state "B")
    "Ada" 1990 8 15 14 30 "London" (PFloat "51.5") (PFloat "-0.12") "Mars/Olympus"
  = (initial_state "B", Ok (PNone, "Error: Invalid timezone", "❌ Chart generation failed")).
Proof.
  exact (engine_error_reaches_ui (fun _ => true) (initial_state "B") (OtherError "Invalid timezone")
    "Ada" 1990 8 15 14 30 "London" (PFloat "51.5") (PFloat "-0.12") "Mars/Olympus"
    ltac:(discriminate) ltac:(discriminate)).
Defined.

Lemma space_to_underscore_props (s : string) :
  String.length (space_to_underscore s) = String.length s /\
  ~ In " "%char (list_ascii_of_string (space_to_underscore s)).
Proof.
  induction s as [|c s [IHl IHn]]; [split; [reflexivity | intros []]|].
  cbn [space_to_underscore String.length list_ascii_of_string]. split; [f_equal; exact IHl|].
  intros [Hc | Hin]; [|exact (IHn Hin)].
  destruct (Ascii.eqb c " "%char) eqn:E; [discriminate Hc|].
  subst c. rewrite Ascii.eqb_refl in E. discriminate E.
Qed.

Lemma space_to_underscore_in (c : ascii) (s : string) :
  In c (list_ascii_of_string (space_to_underscore s)) -> c = "_"%char \/ In c (list_ascii_of_string s).
Proof.
  induction s as [|a s IH]; [intros []|].
  cbn [space_to_underscore list_ascii_of_string]. intros [Hc | Hin].
  - destruct (Ascii.eqb a " "%char); [left; symmetry; exact Hc | right; left; exact Hc].
  - destruct (IH Hin) as [H | H]; [left; exact H | right; right; exact H].
Qed.

Lemma list_ascii_of_string_app (x y : string) :
  list_ascii_of_string (x ++ y) = (list_ascii_of_string x ++ list_ascii_of_string y)%list.
Proof.
  induction x as [|a x IH]; [reflexivity|].
  change (a :: list_ascii_of_string (x ++ y) = a :: (list_ascii_of_string x ++ list_ascii_of_string y))%list.
  rewrite IH. reflexivity.
Qed.

Lemma split_slash_plain (cs acc : list ascii) :
  ~ In "/"%char cs -> split_slash acc cs = [string_of_list_ascii (rev acc ++ cs)%list].
Proof.
  revert acc. induction cs as [|c cs IH]; intros acc Hs; cbn [split_slash].
  - rewrite List.app_nil_r. reflexivity.
  - destruct (Ascii.eqb c "/"%char) eqn:Ec.
    + apply Ascii.eqb_eq in Ec. subst c. exfalso. apply Hs. left. reflexivity.
    + rewrite IH by (intros H; apply Hs; right; exact H).
      cbn [rev]. rewrite <- List.app_assoc. reflexivity.
Qed.

Lemma path_root_plain (x : string) :
  ~ In "/"%char (list_ascii_of_string x) -> x <> "" -> path_root x = "".
Proof.
  intros Hs He. unfold path_root. revert Hs He.
  destruct x as [|a x']; intros Hs He; [exfalso; apply He; reflexivity|].
  cbn [list_ascii_of_string].
  destruct (Ascii.eqb a "/"%char) eqn:Ea; [|reflexivity].
  apply Ascii.eqb_eq in Ea. subst a. exfalso. apply Hs. left. reflexivity.
Qed.

Lemma path_parts_plain (x : string) :
  ~ In "/"%char (list_ascii_of_string x) -> x <> "" -> x <> "." -> path_parts x = [x].
Proof.
  intros Hs He Hd. unfold path_parts. rewrite (split_slash_plain _ nil Hs).
  cbn [rev List.app]. rewrite string_of_list_ascii_of_string. cbn [List.filter].
  rewrite (proj2 (String.eqb_neq x "") He), (proj2 (String.eqb_neq x ".") Hd). reflexivity.
Qed.

(** [Path("output") / x] for a relative file name without "/". *)
Lemma path_div_output (x : string) :
  ~ In "/"%char (list_ascii_of_string x) -> x <> "" -> x <> "." -> path_div "output" x = "output/" ++ x.
Proof.
  intros Hs He Hd. unfold path_div.
  rewrite (path_root_plain x Hs He), (path_parts_plain x Hs He Hd). reflexivity.
Qed.

(** [Path("output") / ("/" + y)]: the absolute operand replaces the base. *)
Lemma path_div_output_abs (y : string) :
  ~ In "/"%char (list_ascii_of_string y) -> y <> "" -> y <> "." -> path_div "output" (String "/" y) = "/" ++ y.
Proof.
  intros Hs He Hd.
  assert (Hr : path_root (String "/" y) = "/").
  { unfold path_root. cbn [list_ascii_of_string]. revert Hs He.
    destruct y as [|b y']; intros Hs He; [exfalso; apply He; reflexivity|].
    cbn [list_ascii_of_string]. destruct (Ascii.eqb b "/"%char) eqn:Eb; [|reflexivity].
    apply Ascii.eqb_eq in Eb. subst b. exfalso. apply Hs. simpl. left. reflexivity. }
  assert (Hp : path_parts (String "/" y) = [y]).
  { unfold path_parts.
    change (split_slash nil (list_ascii_of_string (String "/" y)))
      with (string_of_list_ascii (rev nil) :: split_slash nil (list_ascii_of_string y)).
    rewrite (split_slash_plain _ nil Hs). cbn [rev List.app]. rewrite string_of_list_ascii_of_string.
    cbn [List.filter].
    rewrite (proj2 (String.eqb_neq y "") He), (proj2 (String.eqb_neq y ".") Hd). reflexivity. }
  unfold path_div. rewrite Hr, Hp. reflexivity.
Qed.

Lemma svg_file_name_plain (p : string) :
  ~ In "/"%char (list_ascii_of_string p) ->
  ~ In "/"%char (list_ascii_of_string (space_to_underscore p ++ "_chart.svg")) /\
  space_to_underscore p ++ "_chart.svg" <> "" /\ space_to_underscore p ++ "_chart.svg" <> ".".
Proof.
  intros Hs. split; [|split].
  - rewrite list_ascii_of_string_app. intros Hin. apply in_app_or in Hin as [Hin | Hin].
    + destruct (space_to_underscore_in _ _ Hin) as [H | H]; [discriminate H | exact (Hs H)].
    + simpl in Hin. intuition discriminate.
  - intros H. apply (f_equal String.length) in H. rewrite str_length_app in H. simpl in H. lia.
  - intros H. apply (f_equal String.length) in H. rewrite str_length_app in H. simpl in H. lia.
Qed.

(** The record of a successful [generate_chart] (X11): it carries the
    given name, the given city or "Unknown" when the city is falsy, and no
    ["chart_svg"] key. Its SVG path is [str(Path("output") / file)] for
    the file name "<name>_chart.svg" with every space of the name
    replaced: for a name without "/" it is "output/<name>_chart.svg"
    with the name's length kept and no space left; for a name "/<n>"
    (no further "/") the absolute operand discards "output" and the path
    is "/<n>_chart.svg". *)
Theorem generate_chart_record (engine : engine_output) (name : string)
    (year month day hour minute : Z) (latitude longitude : pyval)
    (timezone : string) (city : pyval) :
  let res := generate_chart engine name year month day hour minute latitude longitude timezone city in
  (exists msg, res = PDict [("success", PBool false); ("message", PStr msg)]) \/
  (py_get res "name" PNone = Ok (PStr name) /\
   rbind (py_getitem res "birth_data") (fun bd => py_get bd "city" PNone)
     = Ok (if py_truthy city then city else PStr "Unknown") /\
   (~ In "/"%char (list_ascii_of_string name) ->
    exists path, py_get res "chart_svg_path" PNone = Ok (PStr ("output/" ++ path ++ "_chart.svg")) /\
      String.length path = String.length name /\ ~ In " "%char (list_ascii_of_string path)) /\
   (forall n, name = "/" ++ n -> ~ In "/"%char (list_ascii_of_string n) ->
    py_get res "chart_svg_path" PNone = Ok (PStr ("/" ++ space_to_underscore n ++ "_chart.svg"))) /\
   py_get res "chart_svg" PNone = Ok PNone).
Proof.
  cbv zeta.
  destruct (generate_chart_fields engine name year month day hour minute latitude longitude timezone city)
    as [(msg & Hr & _) | (ps & asps & hs & it & Hr & _)]; rewrite Hr; [left; eauto | right].
  split; [reflexivity|]. split; [reflexivity|]. split; [|split; [|reflexivity]].
  - intros Hs. destruct (svg_file_name_plain name Hs) as (H1 & H2 & H3).
    exists (space_to_underscore name). split; [|apply space_to_underscore_props].
    rewrite (path_div_output _ H1 H2 H3). reflexivity.
  - intros n -> Hs. destruct (svg_file_name_plain n Hs) as (H1 & H2 & H3).
    change (space_to_underscore ("/" ++ n) ++ "_chart.svg")
      with (String "/" (space_to_underscore n ++ "_chart.svg")).
    rewrite (path_div_output_abs _ H1 H2 H3). reflexivity.
Qed.

Lemma generate_chart_record_witness :
  (exists path,
     py_get (generate_chart sample_engine "Ada Lovelace" 1990 8 15 14 30 (PFloat "51.5") (PFloat "-0.12")
               "Europe/London" (PStr "London")) "chart_svg_path" PNone
     = Ok (PStr ("output/" ++ path ++ "_chart.svg")) /\ String.length path = 12) /\
  py_get (generate_chart sample_engine "/tmp" 1990 8 15 14 30 (PFloat "51.5") (PFloat "-0.12")
            "Europe/London" (PStr "London")) "chart_svg_path" PNone = Ok (PStr "/tmp_chart.svg").
Proof.
  split.
  - destruct (generate_chart_record sample_engine "Ada Lovelace" 1990 8 15 14 30 (PFloat "51.5")
      (PFloat "-0.12") "Europe/London" (PStr "London")) as [[msg H] | (_ & _ & Hp & _ & _)];
      [vm_compute in H; discriminate H|].
    destruct Hp as (p & H1 & H2 & _); [simpl; intuition discriminate|].
    exists p. split; [exact H1 | exact H2].
  - destruct (generate_chart_record sample_engine "/tmp" 1990 8 15 14 30 (PFloat "51.5")
      (PFloat "-0.12") "Europe/London" (PStr "London")) as [[msg H] | (_ & _ & _ & Ha & _)];
      [vm_compute in H; discriminate H|].
    rewrite (Ha "tmp" eq_refl); [reflexivity | simpl; intuition discriminate].
Defined.

Lemma fmt2_field (z : Z) : (0 <= z <= 99)%Z -> decimal_field 2 (fmt_0d 2 z) z = true.
Proof.
  intros Hz.
  assert (Hall : forallb (fun n => decimal_field 2 (fmt_0d 2 (Z.of_nat n)) (Z.of_nat n)) (seq 0 100) = true)
    by (vm_compute; reflexivity).
  rewrite List.forallb_forall in Hall.
  specialize (Hall (Z.to_nat z)). rewrite Z2Nat.id in Hall by lia.
  apply Hall, List.in_seq. lia.
Qed.

Lemma year_field (z : Z) : (1000 <= z <= 9999)%Z -> decimal_field 4 (str_of_Z z) z = true.
Proof.
  intros Hz.
  assert (Hall : forallb (fun n => decimal_field 4 (str_of_Z (Z.of_nat n)) (Z.of_nat n)) (seq (10 * 100) (90 * 100)) = true)
    by (vm_compute; reflexivity).
  rewrite List.forallb_forall in Hall.
  specialize (Hall (Z.to_nat z)). rewrite Z2Nat.id in Hall by lia.
  apply Hall, List.in_seq. lia.
Qed.

(** The birth data of a successful [generate_chart] (X12): for a
    four-digit year and month, day, hour and minute in 0..99, the date is
    "YYYY-MM-DD" and the time "HH:MM", each field of fixed width made of
    decimal digits that read back as the given number. *)
Theorem birth_data_date_time (engine : engine_output) (name : string)
    (year month day hour minute : Z) (latitude longitude : pyval)
    (timezone : string) (city : pyval) :
  (1000 <= year <= 9999)%Z -> (0 <= month <= 99)%Z -> (0 <= day <= 99)%Z ->
  (0 <= hour <= 99)%Z -> (0 <= minute <= 99)%Z ->
  let res := generate_chart engine name year month day hour minute latitude longitude timezone city in
  (exists msg, res = PDict [("success", PBool false); ("message", PStr msg)]) \/
  (exists ys ms ds hs mis,
     rbind (py_getitem res "birth_data") (fun bd => py_get bd "date" PNone)
       = Ok (PStr (ys ++ "-" ++ ms ++ "-" ++ ds)) /\
     rbind (py_getitem res "birth_data") (fun bd => py_get bd "time" PNone)
       = Ok (PStr (hs ++ ":" ++ mis)) /\
     decimal_field 4 ys year = true /\ decimal_field 2 ms month = true /\
     decimal_field 2 ds day = true /\ decimal_field 2 hs hour = true /\
     decimal_field 2 mis minute = true).
Proof.
  intros Hy Hmo Hd Hh Hmi. cbv zeta.
  destruct (generate_chart_fields engine name year month day hour minute latitude longitude timezone city)
    as [(msg & Hr & _) | (ps & asps & hs & it & Hr & _)]; rewrite Hr; [left; eauto | right].
  exists (str_of_Z year), (fmt_0d 2 month), (fmt_0d 2 day), (fmt_0d 2 hour), (fmt_0d 2 minute).
  split; [reflexivity|]. split; [reflexivity|].
  split; [apply year_field; exact Hy|].
  repeat split; apply fmt2_field; assumption.
Qed.

Lemma birth_data_date_time_witness :
  (exists msg, generate_chart sample_engine "Ada" 1990 8 15 14 30 (PFloat "51.5") (PFloat "-0.12")
                 "Europe/London" (PStr "London")
               = PDict [("success", PBool false); ("message", PStr msg)]) \/
  (exists ys ms ds hs mis,
     rbind (py_getitem (generate_chart sample_engine "Ada" 1990 8 15 14 30 (PFloat "51.5") (PFloat "-0.12")
                 "Europe/London" (PStr "London")) "birth_data") (fun bd => py_get bd "date" PNone)
       = Ok (PStr (ys ++ "-" ++ ms ++ "-" ++ ds)) /\
     rbind (py_getitem (generate_chart sample_engine "Ada" 1990 8 15 14 30 (PFloat "51.5") (PFloat "-0.12")
                 "Europe/London" (PStr "London")) "birth_data") (fun bd => py_get bd "time" PNone)
       = Ok (PStr (hs ++ ":" ++ mis)) /\
     decimal_field 4 ys 1990 = true /\ decimal_field 2 ms 8 = true /\
     decimal_field 2 ds 15 = true /\ decimal_field 2 hs 14 = true /\
     decimal_field 2 mis 30 = true).
Proof.
  exact (birth_data_date_time sample_engine "Ada" 1990 8 15 14 30 (PFloat "51.5") (PFloat "-0.12")
    "Europe/London" (PStr "London") ltac:(lia) ltac:(lia) ltac:(lia) ltac:(lia) ltac:(lia)).
Defined.

(** [format_chart_for_display] on what [generate_chart] returns (X13):
    a successful record raises [KeyError('location')], as its birth data
    has no location, and any other record (the failure record) is shown
    as "No chart data available.". *)
Theorem display_of_generated_chart (engine : engine_output) (name : string)
    (year month day hour minute : Z) (latitude longitude : pyval)
    (timezone : string) (city : pyval) :
  let res := generate_chart engine name year month day hour minute latitude longitude timezone city in
  (py_get res "success" PNone = Ok (PBool true) ->
     format_chart_for_display res = Raise (KeyError "location")) /\
  (py_get res "success" PNone <> Ok (PBool true) ->
     format_chart_for_display res = Ok "No chart data available.").
Proof.
  cbv zeta.
  destruct (generate_chart_fields engine name year month day hour minute latitude longitude timezone city)
    as [(msg & Hr & _) | (ps & asps & hs & it & Hr & _)]; rewrite Hr; split.
  - discriminate.
  - intros _. reflexivity.
  - intros _. reflexivity.
  - intros H. exfalso. apply H. reflexivity.
Qed.

Lemma display_of_generated_chart_witness :
  format_chart_for_display
    (generate_chart (Raise (OtherError "Invalid timezone")) "Ada" 1990 8 15 14 30 (PFloat "51.5")
       (PFloat "-0.12") "Mars/Olympus" (PStr "London")) = Ok "No chart data available." /\
  format_chart_for_display
    (generate_chart sample_engine "Ada" 1990 8 15 14 30 (PFloat "51.5") (PFloat "-0.12")
       "Europe/London" (PStr "London")) = Raise (KeyError "location").
Proof.
  split.
  - apply (proj2 (display_of_generated_chart (Raise (OtherError "Invalid timezone")) "Ada" 1990 8 15 14 30
      (PFloat "51.5") (PFloat "-0.12") "Mars/Olympus" (PStr "London"))).
    vm_compute. discriminate.
  - apply (proj1 (display_of_generated_chart sample_engine "Ada" 1990 8 15 14 30 (PFloat "51.5")
      (PFloat "-0.12") "Europe/London" (PStr "London"))).
    vm_compute. reflexivity.
Defined.

Lemma str_join_cons2 (sep x y : string) (ys : list string) :
  str_join sep (x :: y :: ys) = x ++ sep ++ str_join sep (y :: ys).
Proof. reflexivity. Qed.

Lemma display_lines_head (cd : pyval) (lines : list pyval) :
  display_lines cd = Ok lines ->
  exists name rest, py_getitem cd "name" = Ok name /\
    lines = PStr ("# Natal Chart: " ++ py_str name) :: PStr "" :: rest.
Proof.
  unfold display_lines. intros H. apply rbind_ok_inv in H as (name & Hn & H).
  exists name. revert lines H. cbv zeta.
  repeat (apply rbind_post; intros ?; cbv beta).
  intros lines H. injection H as <-. eexists; split; [exact Hn | reflexivity].
Qed.

Lemma context_parts_name (cd : pyval) (parts : list string) :
  context_parts cd = Ok parts ->
  exists name rest, py_getitem cd "name" = Ok name /\
    parts = ("User's Natal Chart - " ++ py_str name) :: rest /\ rest <> nil.
Proof.
  unfold context_parts. intros H. apply rbind_ok_inv in H as (name & Hn & H).
  exists name. revert parts H. cbv zeta.
  repeat (apply rbind_post; intros ?; cbv beta).
  intros parts H. injection H as <-. eexists; split; [exact Hn | split; [reflexivity | discriminate]].
Qed.

(** The first lines of the two chart texts (X14): a chart text
    [format_chart_for_display] returns is "No chart data available." or
    starts with "# Natal Chart: " and the record's name on its own line;
    a context [set_chart_context] stores is absent or starts with
    "User's Natal Chart - " and the record's name on its own line. *)
Theorem display_and_context_headings (cd : pyval) :
  (forall s, format_chart_for_display cd = Ok s ->
     s = "No chart data available." \/
     exists name t, py_getitem cd "name" = Ok name /\ s = "# Natal Chart: " ++ py_str name ++ nl ++ t) /\
  (forall c c', set_chart_context c cd = Ok c' ->
     chart_context c' = None \/
     exists name t, py_getitem cd "name" = Ok name /\
       chart_context c' = Some ("User's Natal Chart - " ++ py_str name ++ nl ++ t)).
Proof.
  split.
  - intros s H. unfold format_chart_for_display in H.
    apply rbind_ok_inv in H as (succ & _ & H).
    destruct (negb (py_truthy succ)); [injection H as <-; left; reflexivity|].
    right. apply rbind_ok_inv in H as (lines & Hl & H).
    destruct (display_lines_head cd lines Hl) as (name & rest & Hn & ->).
    unfold py_str_join in H. cbn [py_join_items] in H.
    apply rbind_ok_inv in H as (x & Hx & H). apply rbind_ok_inv in Hx as (y & Hy & Hx).
    apply rbind_ok_inv in Hy as (zs & _ & Hy).
    injection Hy as <-. injection Hx as <-. injection H as <-.
    exists name, (str_join nl ("" :: zs)). split; [exact Hn|].
    rewrite str_app_assoc. reflexivity.
  - intros c c' H. unfold set_chart_context in H.
    destruct (negb (py_truthy cd)); [injection H as <-; left; reflexivity|].
    apply rbind_ok_inv in H as (succ & _ & H).
    destruct (negb (py_truthy succ)); [injection H as <-; left; reflexivity|].
    right. apply rbind_ok_inv in H as (parts & Hp & H). injection H as <-.
    destruct (context_parts_name cd parts Hp) as (name & rest & Hn & -> & Hr).
    destruct rest as [|y ys]; [contradiction|].
    exists name, (str_join nl (y :: ys)). split; [exact Hn|].
    cbn [with_context chart_context]. rewrite str_join_cons2, str_app_assoc. reflexivity.
Qed.

Lemma display_and_context_headings_witness :
  exists s,
    format_chart_for_display
      (PDict [("success", PBool true); ("name", PStr "Ada");
              ("birth_data", PDict [("date", PStr "1990-08-15"); ("time", PStr "14:30");
                                    ("location", PStr "London")])]) = Ok s /\
    (s = "No chart data available." \/
     exists name t,
       py_getitem (PDict [("success", PBool true); ("name", PStr "Ada");
              ("birth_data", PDict [("date", PStr "1990-08-15"); ("time", PStr "14:30");
                                    ("location", PStr "London")])]) "name" = Ok name /\
       s = "# Natal Chart: " ++ py_str name ++ nl ++ t).
Proof.
  exists (match format_chart_for_display
      (PDict [("success", PBool true); ("name", PStr "Ada");
              ("birth_data", PDict [("date", PStr "1990-08-15"); ("time", PStr "14:30");
                                    ("location", PStr "London")])]) with Ok s => s | Raise _ => "" end).
  split; [reflexivity|].
  apply (proj1 (display_and_context_headings
      (PDict [("success", PBool true); ("name", PStr "Ada");
              ("birth_data", PDict [("date", PStr "1990-08-15"); ("time", PStr "14:30");
                                    ("location", PStr "London")])]))).
  reflexivity.
Defined.

Lemma getattr_dict (subject : pyobj) (a : string) :
  (forall a v, assoc a subject = Some v -> is_dict v = true) ->
  hasattr subject a = true -> exists kvs, getattr subject a = Ok (PDict kvs).
Proof.
  intros Hd Ha. unfold hasattr, getattr in *. destruct (assoc a subject) as [v|] eqn:E; [|discriminate].
  specialize (Hd a v E). destruct v; try discriminate Hd. eauto.
Qed.

Lemma rmap_Forall2 {A B} (f : A -> result B) (R : A -> B -> Prop) (xs : list A) :
  (forall x, In x xs -> exists y, f x = Ok y /\ R x y) ->
  exists ys, rmap f xs = Ok ys /\ Forall2 R xs ys.
Proof.
  induction xs as [|x xs IH]; intros Hf; simpl.
  - exists nil. split; [reflexivity | constructor].
  - destruct (Hf x (or_introl eq_refl)) as (y & Hy & Ry). rewrite Hy. cbn [rbind].
    destruct IH as (ys & Hys & Rys); [intros z Hz; apply Hf; right; exact Hz|].
    rewrite Hys. exists (y :: ys). split; [reflexivity | constructor; assumption].
Qed.

Lemma Forall2_concat_map {A B C} (h : B -> C) (e : A -> list C) (xs : list A) (yss : list (list B)) :
  Forall2 (fun x ys => map h ys = e x) xs yss -> map h (concat yss) = concat (map e xs).
Proof. induction 1; simpl; [reflexivity|]. rewrite map_app. f_equal; assumption. Qed.

Lemma concat_map_filter {A C} (P : A -> bool) (k : A -> C) (xs : list A) :
  concat (map (fun x => if P x then [k x] else nil) xs) = map k (List.filter P xs).
Proof. induction xs as [|x xs IH]; simpl; [reflexivity|]. destruct (P x); simpl; rewrite IH; reflexivity. Qed.

Lemma Forall2_len {A B} (R : A -> B -> Prop) (xs : list A) (ys : list B) :
  Forall2 R xs ys -> List.length ys = List.length xs.
Proof. induction 1; simpl; congruence. Qed.

Lemma Forall2_Forall_r {A B} (P : B -> Prop) (xs : list A) (ys : list B) :
  Forall2 (fun _ y => P y) xs ys -> Forall P ys.
Proof. induction 1; constructor; assumption. Qed.

(** [_extract_placements] (X15): when every attribute of the subject is
    a point dict, it succeeds, and the planet names of its list are
    "Ascendant (Rising)" first when the subject has a first house, then
    the names of the planets the subject has, in the fixed order Sun,
    Moon, Mercury, ..., Pluto, North Node. *)
Theorem extract_placements_order (subject : pyobj) :
  (forall a v, assoc a subject = Some v -> is_dict v = true) ->
  exists ps, extract_placements subject = Ok (PList ps) /\
    map (fun p => dict_field p "planet") ps =
      map (fun n => Some (PStr n))
        ((if hasattr subject "first_house" then ["Ascendant (Rising)"] else nil) ++
         map snd (List.filter (fun p => hasattr subject (fst p)) planets))%list.
Proof.
  intros Hd. unfold extract_placements, rflat_map.
  match goal with |- context [rmap ?f planets] =>
    destruct (rmap_Forall2 f (fun x ys => map (fun p => dict_field p "planet") ys =
      (if hasattr subject (fst x) then [Some (PStr (snd x))] else nil)) planets) as (yss & E & HF) end.
  { intros [a n] _. cbn [fst snd]. destruct (hasattr subject a) eqn:Ha.
    - destruct (getattr_dict subject a Hd Ha) as [kvs Hg]. rewrite Hg. cbn [rbind py_get].
      eexists; split; reflexivity.
    - eexists; split; reflexivity. }
  rewrite E. cbn [rbind].
  pose proof (Forall2_concat_map _ _ _ _ HF) as Hm.
  rewrite (concat_map_filter (fun x => hasattr subject (fst x)) (fun x => Some (PStr (snd x)))) in Hm.
  destruct (hasattr subject "first_house") eqn:Hf.
  - destruct (getattr_dict subject "first_house" Hd Hf) as [kvs Hg]. rewrite Hg. cbn [rbind py_get].
    eexists; split; [reflexivity|]. cbn [map app]. rewrite Hm, List.map_map. reflexivity.
  - eexists; split; [reflexivity|]. cbn [app]. rewrite Hm, List.map_map. reflexivity.
Qed.

Lemma extract_placements_order_witness :
  exists ps, extract_placements [("moon", PDict nil); ("sun", PDict nil); ("first_house", PDict nil)]
               = Ok (PList ps) /\
    map (fun p => dict_field p "planet") ps =
      [Some (PStr "Ascendant (Rising)"); Some (PStr "Sun"); Some (PStr "Moon")].
Proof.
  destruct (extract_placements_order [("moon", PDict nil); ("sun", PDict nil); ("first_house", PDict nil)])
    as (ps & E & Hm).
  - intros a v H. cbn [assoc] in H.
    destruct (String.eqb a "moon"); [injection H as <-; reflexivity|].
    destruct (String.eqb a "sun"); [injection H as <-; reflexivity|].
    destruct (String.eqb a "first_house"); [injection H as <-; reflexivity | discriminate H].
  - exists ps. split; [exact E | rewrite Hm; reflexivity].
Defined.

(** [_extract_houses] (X16): when every attribute of the subject is a
    point dict, it succeeds, and the house numbers of its list are, in
    increasing order, the numbers i in 1..12 for which the subject has
    the attribute "first_house" (i = 1) or "house<i>" (i > 1). *)
Theorem extract_houses_numbering (subject : pyobj) :
  (forall a v, assoc a subject = Some v -> is_dict v = true) ->
  exists hs, extract_houses subject = Ok (PList hs) /\
    map (fun x => dict_field x "house") hs =
      map (fun i => Some (PInt (Z.of_nat i)))
        (List.filter (fun i => hasattr subject
            (if (1 <? i)%nat then "house" ++ string_of_N (N.of_nat i) else "first_house")) (seq 1 12)).
Proof.
  intros Hd. unfold extract_houses, rflat_map.
  match goal with |- context [rmap ?f (seq 1 12)] =>
    destruct (rmap_Forall2 f (fun i ys => map (fun x => dict_field x "house") ys =
      (if hasattr subject (if (1 <? i)%nat then "house" ++ string_of_N (N.of_nat i) else "first_house")
       then [Some (PInt (Z.of_nat i))] else nil)) (seq 1 12)) as (yss & E & HF) end.
  { intros i _. cbv beta zeta.
    destruct (hasattr subject (if (1 <? i)%nat then "house" ++ string_of_N (N.of_nat i) else "first_house"))
      eqn:Ha.
    - destruct (getattr_dict _ _ Hd Ha) as [kvs Hg]. rewrite Hg. cbn [rbind py_get].
      eexists; split; reflexivity.
    - eexists; split; reflexivity. }
  rewrite E. cbn [rbind]. eexists; split; [reflexivity|].
  rewrite (Forall2_concat_map _ _ _ _ HF).
  exact (concat_map_filter (fun i => hasattr subject
            (if (1 <? i)%nat then "house" ++ string_of_N (N.of_nat i) else "first_house"))
           (fun i => Some (PInt (Z.of_nat i))) (seq 1 12)).
Qed.

Lemma extract_houses_numbering_witness :
  exists hs, extract_houses [("house10", PDict nil); ("first_house", PDict nil)] = Ok (PList hs) /\
    map (fun x => dict_field x "house") hs = [Some (PInt 1); Some (PInt 10)].
Proof.
  destruct (extract_houses_numbering [("house10", PDict nil); ("first_house", PDict nil)]) as (hs & E & Hm).
  - intros a v H. cbn [assoc] in H.
    destruct (String.eqb a "house10"); [injection H as <-; reflexivity|].
    destruct (String.eqb a "first_house"); [injection H as <-; reflexivity | discriminate H].
  - exists hs. split; [exact E | rewrite Hm; reflexivity].
Defined.

(** [_extract_aspects] (X17): without an [all_aspects] attribute it
    returns the empty list; when [all_aspects] is a list of dicts it
    returns one record per aspect, and each record has no ["planets"]
    key, so the aspect lines of [format_chart_for_display] and
    [set_chart_context] raise [KeyError('planets')] on it. *)
Theorem extract_aspects_records (aspects : pyobj) (xs : list pyval) :
  (hasattr aspects "all_aspects" = false -> extract_aspects aspects = Ok (PList nil)) /\
  (getattr aspects "all_aspects" = Ok (PList xs) -> Forall (fun a => is_dict a = true) xs ->
   exists ys, extract_aspects aspects = Ok (PList ys) /\ List.length ys = List.length xs /\
     Forall (fun y => display_aspect_line y = Raise (KeyError "planets") /\
                      context_aspect_line y = Raise (KeyError "planets")) ys).
Proof.
  split.
  - intros Hh. unfold extract_aspects. rewrite Hh. reflexivity.
  - intros Hg Hxs.
    assert (Hh : hasattr aspects "all_aspects" = true)
      by (unfold hasattr, getattr in *; destruct (assoc "all_aspects" aspects); [reflexivity | discriminate]).
    unfold extract_aspects. rewrite Hh, Hg. cbn [rbind py_iter].
    match goal with |- context [rmap ?f xs] =>
      destruct (rmap_Forall2 f (fun _ y => display_aspect_line y = Raise (KeyError "planets") /\
                                   context_aspect_line y = Raise (KeyError "planets")) xs)
        as (ys & E & HF) end.
    { intros x Hx. rewrite List.Forall_forall in Hxs. specialize (Hxs x Hx).
      destruct x; try discriminate Hxs. cbn [rbind py_get].
      eexists; split; [reflexivity | split; reflexivity]. }
    rewrite E. exists ys. split; [reflexivity|]. split; [exact (Forall2_len _ _ _ HF)|].
    exact (Forall2_Forall_r _ _ _ HF).
Qed.

Lemma extract_aspects_records_witness :
  exists ys, extract_aspects [("all_aspects", PList [PDict [("p1_name", PStr "Sun"); ("p2_name", PStr "Moon")]])]
               = Ok (PList ys) /\ List.length ys = 1 /\
    Forall (fun y => display_aspect_line y = Raise (KeyError "planets") /\
                     context_aspect_line y = Raise (KeyError "planets")) ys.
Proof.
  apply (proj2 (extract_aspects_records [("all_aspects", PList [PDict [("p1_name", PStr "Sun"); ("p2_name", PStr "Moon")]])]
                  [PDict [("p1_name", PStr "Sun"); ("p2_name", PStr "Moon")]])).
  - reflexivity.
  - repeat constructor.
Defined.

Lemma point_interp (subject : pyobj) (attr key : string) (tbl : list (string * string)) (dflt : string) :
  (forall v, assoc attr subject = Some v ->
     exists kvs, v = PDict kvs /\ forall s, assoc "sign" kvs = Some s -> is_str s = true) ->
  exists l, (if hasattr subject attr then
               o <- getattr subject attr ;; s <- py_get o "sign" (PStr "") ;;
               t <- table_get tbl s dflt ;; Ok [(key, PStr t)]
             else Ok nil) = Ok l /\
            map fst l = (if hasattr subject attr then [key] else nil) /\
            Forall (fun kv => is_str (snd kv) = true) l.
Proof.
  intros Hd. unfold hasattr, getattr. destruct (assoc attr subject) as [v|] eqn:E.
  - destruct (Hd v eq_refl) as (kvs & -> & Hs). cbn [rbind py_get].
    destruct (assoc "sign" kvs) as [s|] eqn:Es.
    + specialize (Hs s eq_refl). destruct s; try discriminate Hs. cbn [table_get rbind].
      eexists; split; [reflexivity|]. split; [reflexivity|]. repeat constructor.
    + cbn [table_get rbind]. eexists; split; [reflexivity|]. split; [reflexivity|]. repeat constructor.
  - eexists; split; [reflexivity|]. split; [reflexivity | constructor].
Qed.

(** [_generate_interpretation] (X18): when the sun, moon and first house
    of the subject are dicts whose sign, if any, is a string, it returns
    a dict of text values whose keys are "sun", "moon" and "rising", in
    this order, each present exactly when the subject has the matching
    attribute. *)
Theorem generate_interpretation_keys (subject : pyobj) :
  (forall a v, In a ["sun"; "moon"; "first_house"] -> assoc a subject = Some v ->
     exists kvs, v = PDict kvs /\ forall s, assoc "sign" kvs = Some s -> is_str s = true) ->
  exists kvs, generate_interpretation subject = Ok (PDict kvs) /\
    map fst kvs = ((if hasattr subject "sun" then ["sun"] else nil) ++
                   (if hasattr subject "moon" then ["moon"] else nil) ++
                   (if hasattr subject "first_house" then ["rising"] else nil))%list /\
    Forall (fun kv => is_str (snd kv) = true) kvs.
Proof.
  intros Hd. unfold generate_interpretation.
  destruct (point_interp subject "sun" "sun" sun_table "Core identity and life force expression.")
    as (l1 & E1 & K1 & S1); [intros v; apply Hd; cbn; tauto|].
  destruct (point_interp subject "moon" "moon" moon_table "Emotional nature and instinctual responses.")
    as (l2 & E2 & K2 & S2); [intros v; apply Hd; cbn; tauto|].
  destruct (point_interp subject "first_house" "rising" rising_table "Your outward persona and approach to life.")
    as (l3 & E3 & K3 & S3); [intros v; apply Hd; cbn; tauto|].
  rewrite E1. cbn [rbind]. rewrite E2. cbn [rbind]. rewrite E3. cbn [rbind].
  eexists; split; [reflexivity|]. split.
  - rewrite !List.map_app, K1, K2, K3. reflexivity.
  - apply List.Forall_app; split; [exact S1|]. apply List.Forall_app; split; assumption.
Qed.

Lemma generate_interpretation_keys_witness :
  exists kvs, generate_interpretation [("moon", PDict [("sign", PStr "Leo")]); ("first_house", PDict nil)]
                = Ok (PDict kvs) /\ map fst kvs = ["moon"; "rising"].
Proof.
  destruct (generate_interpretation_keys [("moon", PDict [("sign", PStr "Leo")]); ("first_house", PDict nil)])
    as (kvs & E & K & _).
  - intros a v _ H. cbn [assoc] in H.
    destruct (String.eqb a "moon").
    + injection H as <-. eexists; split; [reflexivity|]. intros s Hs. cbn in Hs. injection Hs as <-. reflexivity.
    + destruct (String.eqb a "first_house"); [|discriminate H].
      injection H as <-. eexists; split; [reflexivity|]. intros s Hs. discriminate Hs.
  - exists kvs. split; [exact E | rewrite K; reflexivity].
Defined.
